(** * The tutoring assistant of [tutor_app.py]: a shallow embedding

    The module [tutor_app.py] sequences calls to hosted services (chat
    completion, transcription, speech synthesis), parses numbered
    suggestions out of a completion, and renders a Markdown study guide
    through the FPDF library, line by line.

    Text.  A Python [str] is modelled by [string]; one [ascii] is one code
    point, so the model covers text over the code points 0..255.  On that
    range [str.strip] and [str.isdigit] are the functions below.

    Effects.  The hosted services and the FPDF library are outside the
    repository.  Their behaviour is gathered in a record [Env] of oracles;
    every definition is a function of that record, and the program's
    statements hold for every [Env].  Calls to the hosted services are
    logged in a trace (a state monad), so that "no call is made" is a
    statement about the trace.  Calls on the FPDF object are run in a monad
    with state and exceptions where the state survives an exception, as a
    mutated Python object does. *)

From Stdlib Require Import String Ascii List Bool Arith NArith ZArith QArith Lia.
From ExtLib Require Import Structures.Monad.
Import ListNotations.
Import MonadNotation.

Local Open Scope list_scope.
Local Open Scope monad_scope.
Local Open Scope string_scope.

(** ** Python's [str] operations on code points 0..255 *)

Module PyStr.

Definition nl : string := String (ascii_of_N 10) EmptyString.

(** [c.isspace()]: TAB..CR, FS..US, SPACE, NEL (0x85), NBSP (0xA0). *)
Definition isspace (c : ascii) : bool :=
  let n := N_of_ascii c in
  ((9 <=? n) && (n <=? 13) || (28 <=? n) && (n <=? 32)
   || (n =? 133) || (n =? 160))%N.

(** [c.isdigit()]: 0..9 and the superscripts two, three (0xB2, 0xB3) and
    one (0xB9). *)
Definition isdigit_char (c : ascii) : bool :=
  let n := N_of_ascii c in
  ((48 <=? n) && (n <=? 57) || (n =? 178) || (n =? 179) || (n =? 185))%N.

(** [s.isdigit()]: non-empty and every character a digit. *)
Fixpoint all_digits (s : string) : bool :=
  match s with
  | EmptyString => true
  | String c s' => isdigit_char c && all_digits s'
  end.

Definition isdigit (s : string) : bool :=
  match s with
  | EmptyString => false
  | _ => all_digits s
  end.

(** Truthiness of a string: [if s:]. *)
Definition truthy (s : string) : bool :=
  match s with
  | EmptyString => false
  | _ => true
  end.

Fixpoint lstrip (s : string) : string :=
  match s with
  | EmptyString => EmptyString
  | String c s' => if isspace c then lstrip s' else s
  end.

Fixpoint rstrip (s : string) : string :=
  match s with
  | EmptyString => EmptyString
  | String c s' =>
      match rstrip s' with
      | EmptyString => if isspace c then EmptyString else String c EmptyString
      | t => String c t
      end
  end.

(** Every character of [s] is whitespace. *)
Fixpoint all_space (s : string) : bool :=
  match s with
  | EmptyString => true
  | String c s' => isspace c && all_space s'
  end.

(** [s.strip()] *)
Definition strip (s : string) : string := rstrip (lstrip s).

(** [s.startswith(p)] *)
Definition startswith (s p : string) : bool := String.prefix p s.

(** [s[n:]] *)
Fixpoint drop (n : nat) (s : string) : string :=
  match n, s with
  | O, _ => s
  | S n', String _ s' => drop n' s'
  | S _, EmptyString => EmptyString
  end.

(** [s.split(chr)] for a one-character separator: never the empty list. *)
Fixpoint split_char (sep : ascii) (s : string) : list string :=
  match s with
  | EmptyString => [EmptyString]
  | String c s' =>
      if Ascii.eqb c sep then EmptyString :: split_char sep s'
      else match split_char sep s' with
           | [] => [String c EmptyString]
           | l :: ls => String c l :: ls
           end
  end.

(** [s.split('\n')] *)
Definition split_lines (s : string) : list string :=
  split_char (ascii_of_N 10) s.

(** The first occurrence of a non-empty [sep] in [s]: the text before it
    and the text after it. *)
Fixpoint partition (sep s : string) : option (string * string) :=
  match s with
  | EmptyString => None
  | String c s' =>
      if String.prefix sep s then Some (EmptyString, drop (String.length sep) s)
      else match partition sep s' with
           | Some (a, b) => Some (String c a, b)
           | None => None
           end
  end.

(** [sep in s] *)
Definition contains (sep s : string) : bool :=
  match partition sep s with
  | Some _ => true
  | None => false
  end.

(** [s.split(sep, 1)] *)
Definition split1 (sep s : string) : list string :=
  match partition sep s with
  | Some (a, b) => [a; b]
  | None => [s]
  end.

End PyStr.
Import PyStr.

(** ** The suggestion parser (lines 175-185 of [generate_suggested_responses]) *)

(** One turn of the [for line in lines] loop: the list after the turn. *)
Definition suggestion_step (suggestions : list string) (line : string)
  : list string :=
  let line_strip := strip line in
  match line_strip with
  | String c0 _ =>
      if isdigit_char c0 && contains ". " line_strip then
        let parts := split1 ". " line_strip in
        match parts with
        | [_; p1] =>
            if truthy (strip p1) then (suggestions ++ [strip p1])%list
            else suggestions
        | _ => suggestions
        end
      else suggestions
  | EmptyString => suggestions
  end.

Definition parse_suggestions (suggestions_text : string) : list string :=
  let lines := split_lines (strip suggestions_text) in
  let suggestions := fold_left suggestion_step lines [] in
  let suggestions :=
    match suggestions with
    | [] =>
        if (1 <=? List.length lines)%nat then
          firstn 3 (map strip (filter (fun line => truthy (strip line)) lines))
        else suggestions
    | _ => suggestions
    end in
  firstn 3 suggestions.

(** ** The hosted services and the FPDF library *)

(** Role-tagged chat message: [{"role": r, "content": c}]. *)
Record message := Message { role : string; content : string }.

(** Arguments of [client.chat.completions.create]. *)
Record chat_request := ChatRequest {
  model : string;
  messages : list message;
  max_tokens : Z;
  temperature : Q
}.

(** A call to a hosted service, as logged in the trace. *)
Inductive api_call :=
| ChatCompletion (r : chat_request)
| Transcription (audio_filepath : string)
| Speech (text voice : string).

(** A hosted call either yields text or raises; [err] is [str(e)]. *)
Inductive api_result :=
| Reply (text : string)
| Failure (err : string).

(** A call on the FPDF object. Heights are [line_height = 6] and
    [line_height * 0.5 = 3].  [cell_bullet] is [cell] with the text U+2022,
    a code point outside the range of the text model. *)
Inductive pdf_call :=
| FPDF_new
| add_page
| set_auto_page_break (auto : bool) (margin : Z)
| set_font (family style : string) (size : Z)
| ln (h : Q)
| multi_cell (w h : Z) (txt : string)
| cell (w h : Z) (txt : string) (ln_arg : Z)
| cell_bullet (w h : Z) (ln_arg : Z)
| set_x (x : Z)
| set_text_color (r g b : Z).

(** What the code does not define itself.  The prompt texts are constants
    of the module that no function inspects. The oracles of the hosted
    services see the trace of the calls made before, so that equal requests
    may get different answers. *)
Record Env := {
  SYSTEM_PROMPT : string;
  SUGGESTED_RESPONSES_PROMPT : string;
  SUMMARY_SYSTEM_PROMPT : string;
  (** [client.chat.completions.create(...).choices[0].message.content] *)
  chat_completions_create : list api_call -> chat_request -> api_result;
  (** the block [open(path, "rb")], then
      [client.audio.transcriptions.create(...).text]: the text, or the
      [str(e)] of the one that raises *)
  audio_transcriptions_create : list api_call -> string -> api_result;
  (** when that block fails: whether it is [open(path, "rb")] that raises,
      before the hosted call is made *)
  audio_open_raises : list api_call -> string -> bool;
  (** the block that creates the temporary file, then
      [client.audio.speech.create] and [stream_to_file]: the path, or
      [None] when one of them raises *)
  audio_speech_create : list api_call -> string -> string -> option string;
  (** when that block fails: whether it is the creation of the temporary
      file that raises, before the hosted call is made *)
  speech_tempfile_raises : list api_call -> bool;
  (** [FPDF] is [None] when the import failed *)
  FPDF_available : bool;
  (** whether a call on the FPDF object raises, after the calls before it *)
  fpdf_raises : list pdf_call -> pdf_call -> bool;
  (** the temporary file and [pdf.output]: the path, or [None] on a raise *)
  fpdf_output : list pdf_call -> option string;
  (** [datetime.now().strftime('%Y-%m-%d %H:%M')] *)
  now : string;
  (** the temporary text file with its content: the path, or [None] *)
  text_file_write : string -> option string
}.

(** *** The trace monad of the hosted calls *)

Definition API (A : Type) : Type := list api_call -> A * list api_call.

#[global] Instance Monad_API : Monad API := {
  ret := fun A (a : A) tr => (a, tr);
  bind := fun A B (m : API A) (f : A -> API B) tr =>
            let (a, tr') := m tr in f a tr'
}.

Definition chat (E : Env) (r : chat_request) : API api_result :=
  fun tr => (chat_completions_create E tr r, (tr ++ [ChatCompletion r])%list).

(** Whether the block of [transcribe_audio] reaches its hosted call: it
    does when it yields a text, and when it fails after the file was
    opened. *)
Definition transcription_call_made (E : Env) (tr : list api_call)
  (path : string) : bool :=
  match audio_transcriptions_create E tr path with
  | Reply _ => true
  | Failure _ => negb (audio_open_raises E tr path)
  end.

Definition transcriptions (E : Env) (path : string) : API api_result :=
  fun tr =>
    (audio_transcriptions_create E tr path,
     if transcription_call_made E tr path
     then (tr ++ [Transcription path])%list else tr).

(** Whether the block of [generate_speech] reaches its hosted call: it
    does when it yields a path, and when it fails after the temporary file
    was created. *)
Definition speech_call_made (E : Env) (tr : list api_call)
  (text voice : string) : bool :=
  match audio_speech_create E tr text voice with
  | Some _ => true
  | None => negb (speech_tempfile_raises E tr)
  end.

Definition speech (E : Env) (text voice : string) : API (option string) :=
  fun tr =>
    (audio_speech_create E tr text voice,
     if speech_call_made E tr text voice
     then (tr ++ [Speech text voice])%list else tr).

(** ** The transcript *)

(** A turn [(human, ai)]; the assistant's text may be [None]. *)
Definition turn : Type := string * option string.

(** Truthiness of a string-or-None: [if ai:], [if pdf_path:]. *)
Definition truthy_opt (o : option string) : bool :=
  match o with
  | Some s => truthy s
  | None => false
  end.

(** ** Core functions *)

Section Core.

Variable E : Env.

Definition transcribe_audio (audio_filepath : option string) : API string :=
  match audio_filepath with
  | None => ret ""
  | Some path =>
      r <- transcriptions E path ;;
      match r with
      | Reply text => ret text
      | Failure e => ret ("Error transcribing audio: " ++ e)
      end
  end.

Definition generate_speech (text voice : string) : API (option string) :=
  speech E text voice.

(** One turn of [for human, ai in history] in [ai_tutor]. *)
Definition ai_tutor_step (messages : list message) (t : turn) : list message :=
  let (human, ai) := t in
  let messages :=
    if truthy human then (messages ++ [Message "user" human])%list
    else messages in
  match ai with
  | Some a =>
      if truthy a then (messages ++ [Message "assistant" a])%list
      else messages
  | None => messages
  end.

(** The message list [ai_tutor] sends (lines 139-143). *)
Definition ai_tutor_messages (user_input : string) (history : list turn)
  : list message :=
  let messages := [Message "system" (SYSTEM_PROMPT E)] in
  let messages := fold_left ai_tutor_step history messages in
  (messages ++ [Message "user" user_input])%list.

Definition ai_tutor (user_input : string) (history : list turn) : API string :=
  let messages := ai_tutor_messages user_input history in
  r <- chat E (ChatRequest "gpt-4o" messages 500 (7 # 10)) ;;
  match r with
  | Reply reply => ret reply
  | Failure e =>
      ret ("Error: " ++ e ++ nl ++ nl
           ++ "Please check your API key/quota and connection.")
  end.

(** The message list [generate_suggested_responses] sends (lines 163-166). *)
Definition suggestion_messages (tutor_message : string) : list message :=
  [Message "system" (SUGGESTED_RESPONSES_PROMPT E);
   Message "user"
     ("Generate 3 student response suggestions for this tutor message:"
      ++ nl ++ nl ++ tutor_message)].

Definition generate_suggested_responses (tutor_message : string)
  : API (list string) :=
  if negb (truthy tutor_message) || startswith tutor_message "Error" then ret []
  else
    let messages := suggestion_messages tutor_message in
    r <- chat E (ChatRequest "gpt-4o-mini" messages 150 (8 # 10)) ;;
    match r with
    | Reply suggestions_text => ret (parse_suggestions suggestions_text)
    | Failure _ => ret ["Error generating suggestions."]
    end.

(** One turn of [for human, ai in chat_history] in
    [generate_study_guide_content]. *)
Definition transcript_step (conversation_text : string) (t : turn) : string :=
  let (human, ai) := t in
  let conversation_text :=
    conversation_text ++ "STUDENT: " ++ human ++ nl ++ nl in
  match ai with
  | Some a =>
      if truthy a then conversation_text ++ "TUTOR: " ++ a ++ nl ++ nl
      else conversation_text
  | None => conversation_text
  end.

(** Lines 210-211: the heading check on the returned text. *)
Definition ensure_heading (study_guide_content : string) : string :=
  if negb (startswith (strip study_guide_content) "#") then
    "# Study Guide: Tutoring Session" ++ nl ++ nl ++ study_guide_content
  else study_guide_content.

(** The message list [generate_study_guide_content] sends (lines 195-200). *)
Definition study_guide_messages (chat_history : list turn) : list message :=
  let messages := [Message "system" (SUMMARY_SYSTEM_PROMPT E)] in
  let conversation_text :=
    fold_left transcript_step chat_history
      ("### TUTORING SESSION TRANSCRIPT ###" ++ nl ++ nl) in
  (messages ++
   [Message "user"
      ("Please create a concise study guide based on this tutoring conversation:"
       ++ nl ++ nl ++ conversation_text)])%list.

Definition generate_study_guide_content (chat_history : list turn)
  : API string :=
  match chat_history with
  | [] => ret "No conversation history to create a study guide from."
  | _ =>
      let messages := study_guide_messages chat_history in
      r <- chat E (ChatRequest "gpt-4o" messages 2000 (5 # 10)) ;;
      match r with
      | Reply study_guide_content => ret (ensure_heading study_guide_content)
      | Failure e => ret ("Error generating study guide: " ++ e)
      end
  end.

(** *** Rendering through FPDF *)

(** The exceptions of the rendering code: a raise inside the FPDF library,
    and the read of a local variable that was never assigned. *)
Inductive exn := FPDFError | NameError.

(** The FPDF object, as the calls it has accepted, and the local variable
    [line_strip] of [create_pdf], unbound until its first assignment. *)
Record pdf_state := PdfState {
  calls : list pdf_call;
  line_strip_var : option string
}.

(** State and exceptions; the state reached at a raise is kept. *)
Definition PDF (A : Type) : Type := pdf_state -> (exn + A) * pdf_state.

#[global] Instance Monad_PDF : Monad PDF := {
  ret := fun A (a : A) st => (inr a, st);
  bind := fun A B (m : PDF A) (f : A -> PDF B) st =>
            match m st with
            | (inr a, st') => f a st'
            | (inl e, st') => (inl e, st')
            end
}.

(** [try: body  except: handler] *)
Definition try_except {A} (body : PDF A) (handler : exn -> PDF A) : PDF A :=
  fun st =>
    match body st with
    | (inr a, st') => (inr a, st')
    | (inl e, st') => handler e st'
    end.

(** A call on the FPDF object: it raises, or it is added to the object. *)
Definition pdf (c : pdf_call) : PDF unit :=
  fun st =>
    if fpdf_raises E (calls st) c then (inl FPDFError, st)
    else (inr tt, PdfState (calls st ++ [c])%list (line_strip_var st)).

Definition assign_line_strip (v : string) : PDF unit :=
  fun st => (inr tt, PdfState (calls st) (Some v)).

Definition read_line_strip : PDF string :=
  fun st =>
    match line_strip_var st with
    | Some v => (inr v, st)
    | None => (inl NameError, st)
    end.

Definition skip_marker : string := "[Skipped line due to processing error]".

(** The body of the inner [try] (lines 249-289). [line.encode('latin-1',
    'ignore')] computes a value that is dropped and cannot raise. *)
Definition render_line (line : string) : PDF unit :=
  let line_strip := strip line in
  assign_line_strip line_strip ;;
  if startswith line "# " then
    pdf (set_font "Arial" "B" 16) ;;
    pdf (ln 6) ;;
    pdf (multi_cell 0 6 (drop 2 line_strip)) ;;
    pdf (ln 3)
  else if startswith line "## " then
    pdf (set_font "Arial" "B" 14) ;;
    pdf (ln 3) ;;
    pdf (multi_cell 0 6 (drop 3 line_strip)) ;;
    pdf (ln 3)
  else if startswith line "### " then
    pdf (set_font "Arial" "BI" 12) ;;
    pdf (ln 3) ;;
    pdf (multi_cell 0 6 (drop 4 line_strip)) ;;
    pdf (ln 3)
  else if startswith line_strip "- " || startswith line_strip "* " then
    pdf (set_font "Arial" "" 12) ;;
    pdf (set_x 15) ;;
    pdf (cell_bullet 5 6 0) ;;
    pdf (multi_cell 0 6 (drop 2 line_strip)) ;;
    pdf (set_x 10)
  else if match line_strip with
          | String c0 _ => isdigit_char c0 && contains ". " line_strip
          | EmptyString => false
          end then
    match split1 ". " line_strip with
    | [p0; p1] =>
        if isdigit p0 then
          pdf (set_font "Arial" "" 12) ;;
          pdf (set_x 15) ;;
          pdf (cell 5 6 (p0 ++ ".") 0) ;;
          pdf (multi_cell 0 6 p1) ;;
          pdf (set_x 10)
        else
          pdf (set_font "Arial" "" 12) ;;
          pdf (multi_cell 0 6 line)
    | _ =>
        pdf (set_font "Arial" "" 12) ;;
        pdf (multi_cell 0 6 line)
    end
  else if truthy line_strip then
    pdf (set_font "Arial" "" 12) ;;
    pdf (multi_cell 0 6 line)
  else
    pdf (ln 3).

(** The inner [try] of the handler (lines 294-299). *)
Definition write_skip_marker : PDF unit :=
  try_except
    (pdf (set_font "Arial" "I" 8) ;;
     pdf (set_text_color 255 0 0) ;;
     pdf (multi_cell 0 6 skip_marker) ;;
     pdf (set_text_color 0 0 0))
    (fun _ => ret tt).

(** One turn of [for line in lines] (lines 248-299). The handler first
    formats [line_strip[:50]] for its message, which reads the variable. *)
Definition process_line (line : string) : PDF unit :=
  try_except (render_line line)
    (fun _ => _ <- read_line_strip ;; write_skip_marker).

Fixpoint for_each {A} (body : A -> PDF unit) (l : list A) : PDF unit :=
  match l with
  | [] => ret tt
  | x :: l' => body x ;; for_each body l'
  end.

(** The outer [try] up to the end of the loop (lines 238-299). *)
Definition create_pdf_document (study_guide_text : string) : PDF unit :=
  pdf FPDF_new ;;
  pdf add_page ;;
  pdf (set_auto_page_break true 15) ;;
  pdf (set_font "Arial" "" 12) ;;
  let lines := split_lines (strip study_guide_text) in
  for_each process_line lines.

Definition create_pdf (study_guide_text : string) : option string :=
  if negb (FPDF_available E) then None
  else
    match create_pdf_document study_guide_text (PdfState [] None) with
    | (inr _, st) => fpdf_output E (calls st)
    | (inl _, _) => None
    end.

Fixpoint repeat_string (s : string) (n : nat) : string :=
  match n with
  | O => ""
  | S n' => s ++ repeat_string s n'
  end.

Definition create_text_file (study_guide_text : string) : option string :=
  text_file_write E
    ("STEM TUTOR - STUDY GUIDE" ++ nl
     ++ (repeat_string "=" 30 ++ nl ++ nl)
     ++ study_guide_text
     ++ (nl ++ nl ++ repeat_string "=" 30 ++ nl)
     ++ ("Generated on " ++ now E ++ nl)).

Definition save_study_guide (study_guide_text : string)
  : option string * string :=
  let pdf_path := create_pdf study_guide_text in
  if truthy_opt pdf_path then (pdf_path, "Study guide created as PDF!")
  else
    let text_path := create_text_file study_guide_text in
    if truthy_opt text_path then
      (text_path, "Study guide created as Text (PDF failed).")
    else (None, "Error creating study guide file (PDF/Text).").

(** ** The handlers of the interface *)

(** [gr.Button(value=..., visible=...)]; no value is the library's default. *)
Record Button := { button_value : option string; button_visible : bool }.

(** [gr.File.update(value=..., visible=...)] *)
Record FileUpdate := { file_value : option string; file_visible : bool }.

Definition use_suggestion (suggestion : string) : string := suggestion.

Definition hidden_button : Button := Build_Button None false.

(** One turn of [for i in range(3)] in [update_suggestions]. *)
Definition update_suggestions_step (suggestions : list string)
  (updates : list Button) (i : nat) : list Button :=
  match nth_error suggestions i with
  | Some s =>
      if truthy s && negb (startswith s "Error") then
        (updates ++ [Build_Button (Some s) true])%list
      else (updates ++ [hidden_button])%list
  | None => (updates ++ [hidden_button])%list
  end.

Definition update_suggestions (suggestions : list string)
  : Button * Button * Button :=
  let updates :=
    fold_left (update_suggestions_step suggestions) (seq 0 3) [] in
  (nth 0 updates hidden_button, nth 1 updates hidden_button,
   nth 2 updates hidden_button).

Definition process_text_and_update (message : string)
  (chat_history : list turn) (voice_enabled : bool)
  : API (string * list turn * option string * (Button * Button * Button)) :=
  if negb (truthy (strip message)) then
    ret ("", chat_history, None, update_suggestions [])
  else
    bot_message <- ai_tutor message chat_history ;;
    let chat_history :=
      (chat_history ++ [(message, Some bot_message)])%list in
    audio_output_path <-
      (if voice_enabled && negb (startswith bot_message "Error")
       then generate_speech bot_message "nova"
       else ret None) ;;
    suggestions <- generate_suggested_responses bot_message ;;
    ret ("", chat_history, audio_output_path, update_suggestions suggestions).

Definition process_audio_and_update (audio_filepath : option string)
  (chat_history : list turn) (voice_enabled : bool)
  : API (option string * list turn * option string
         * (Button * Button * Button)) :=
  match audio_filepath with
  | None => ret (None, chat_history, None, update_suggestions [])
  | Some _ =>
      user_text <- transcribe_audio audio_filepath ;;
      if negb (truthy user_text) || startswith user_text "Error" then
        let error_msg_display :=
          if truthy user_text then user_text
          else "Audio could not be transcribed or was empty." in
        let chat_history :=
          (chat_history ++ [("(Audio input)", Some error_msg_display)])%list in
        ret (None, chat_history, None, update_suggestions [])
      else
        bot_message <- ai_tutor user_text chat_history ;;
        let chat_history :=
          (chat_history ++ [(user_text, Some bot_message)])%list in
        audio_output_path <-
          (if voice_enabled && negb (startswith bot_message "Error")
           then generate_speech bot_message "nova"
           else ret None) ;;
        suggestions <- generate_suggested_responses bot_message ;;
        ret (None, chat_history, audio_output_path,
             update_suggestions suggestions)
  end.

(** No call below raises, so the handler's outer [try] never reaches its
    [except] branch. *)
Definition create_and_download_study_guide (chat_history : list turn)
  : API (FileUpdate * string) :=
  match chat_history with
  | [] =>
      ret (Build_FileUpdate None false, "*Please have a conversation first.*")
  | _ =>
      study_guide_text <- generate_study_guide_content chat_history ;;
      if startswith study_guide_text "Error" then
        ret (Build_FileUpdate None false,
             "*Error generating content: " ++ study_guide_text ++ "*")
      else
        let (file_path, status_message) := save_study_guide study_guide_text in
        if truthy_opt file_path then
          ret (Build_FileUpdate file_path true, "*" ++ status_message ++ "*")
        else
          ret (Build_FileUpdate None false,
               "*Error: " ++ status_message ++ "*")
  end.

Definition clear_chat
  : list turn * option string * string * (Button * Button * Button)
    * FileUpdate * string :=
  ([], None, "", (hidden_button, hidden_button, hidden_button),
   Build_FileUpdate None false, "").

End Core.

(** ** Definitions used to state the properties *)

(** The messages one turn contributes to the request of [ai_tutor]. *)
Definition turn_messages (t : turn) : list message :=
  ((if truthy (fst t) then [Message "user" (fst t)] else [])
   ++ (if truthy_opt (snd t)
       then [Message "assistant" (match snd t with Some a => a | None => "" end)]
       else []))%list.

(** A turn with a non-empty user text and a non-empty assistant text. *)
Definition turn_complete (t : turn) : Prop :=
  truthy (fst t) = true /\ truthy_opt (snd t) = true.

(** The user/assistant pair of a turn. *)
Definition turn_pair (t : turn) : list message :=
  [Message "user" (fst t);
   Message "assistant" (match snd t with Some a => a | None => "" end)].

(** The button [update_suggestions] makes for index [i]. *)
Definition suggestion_button (suggestions : list string) (i : nat) : Button :=
  match nth_error suggestions i with
  | Some s =>
      if truthy s && negb (startswith s "Error")
      then Build_Button (Some s) true else hidden_button
  | None => hidden_button
  end.

(** The [i]-th of the three buttons [update_suggestions] returns. *)
Definition nth_button (bs : Button * Button * Button) (i : nat) : Button :=
  let '(b0, b1, b2) := bs in
  match i with
  | 0%nat => b0
  | 1%nat => b1
  | _ => b2
  end.

(** The history a submit handler returns. *)
Definition out_history {A : Type}
  (out : A * list turn * option string * (Button * Button * Button))
  : list turn :=
  let '(_, chat_history, _, _) := out in chat_history.


(** The calls that open the document in [create_pdf]. *)
Definition opening_calls : list pdf_call :=
  [FPDF_new; add_page; set_auto_page_break true 15; set_font "Arial" "" 12].

(** The FPDF object that has accepted [log] accepts the calls [cs] one
    after the other: none of them raises. *)
Fixpoint accepts (E : Env) (log cs : list pdf_call) : bool :=
  match cs with
  | [] => true
  | c :: cs' => negb (fpdf_raises E log c) && accepts E (log ++ [c])%list cs'
  end.


(** The calls [cs] made one after the other, up to the first raise. *)
Fixpoint pdf_seq (E : Env) (cs : list pdf_call) : PDF unit :=
  match cs with
  | [] => ret tt
  | c :: cs' =>
      match cs' with
      | [] => pdf E c
      | _ => pdf E c ;; pdf_seq E cs'
      end
  end.

(** A computation that leaves [line_strip] as it is and only adds calls to
    the FPDF object, whether it raises or not. *)
Definition steady {A : Type} (m : PDF A) : Prop :=
  forall st r st',
    m st = (r, st') ->
    line_strip_var st' = line_strip_var st
    /\ exists added, calls st' = (calls st ++ added)%list.

(** ** Concrete environments, for the examples *)

Module Demo.

(** Every chat completion answers [completion]; a call on the FPDF object
    raises when [raises] says so; every other service succeeds. *)
Definition env (completion : api_result) (raises : pdf_call -> bool) : Env := {|
  SYSTEM_PROMPT := "You are a tutor.";
  SUGGESTED_RESPONSES_PROMPT := "Generate 3 responses.";
  SUMMARY_SYSTEM_PROMPT := "Write a study guide.";
  chat_completions_create := fun _ _ => completion;
  audio_transcriptions_create := fun _ _ => Reply "What is a fraction?";
  audio_open_raises := fun _ _ => false;
  audio_speech_create := fun _ _ _ => Some "/tmp/speech.mp3";
  speech_tempfile_raises := fun _ => false;
  FPDF_available := true;
  fpdf_raises := fun _ c => raises c;
  fpdf_output := fun _ => Some "/tmp/guide.pdf";
  now := "2025-01-01 09:00";
  text_file_write := fun _ => Some "/tmp/guide.txt"
|}.

Definition never (c : pdf_call) : bool := false.


(** [multi_cell] raises on the text ["bad"] only. *)
Definition bad_text (c : pdf_call) : bool :=
  match c with
  | multi_cell _ _ txt => String.eqb txt "bad"
  | _ => false
  end.

Definition numbered : string := "1. a" ++ nl ++ "2. b" ++ nl ++ "3. c".

Definition bad_text_env : Env := env (Reply "Hello") bad_text.


(** The state of [create_pdf] when the document has just been opened. *)
Definition opened : pdf_state := PdfState opening_calls None.



(** A transcript of one turn. *)
Definition one_turn : list turn :=
  [("What is 1/4?", Some "One of four equal parts.")].

End Demo.

(** ** Definitions used to state further properties *)

(** The audio path and the buttons a submit handler returns. *)
Definition out_audio {A : Type}
  (out : A * list turn * option string * (Button * Button * Button))
  : option string :=
  let '(_, _, audio_output_path, _) := out in audio_output_path.

Definition out_buttons {A : Type}
  (out : A * list turn * option string * (Button * Button * Button))
  : Button * Button * Button :=
  let '(_, _, _, buttons) := out in buttons.

Definition all_hidden : Button * Button * Button :=
  (hidden_button, hidden_button, hidden_button).

(** The request of the tutor's completion call and of the suggestion
    call, as the two functions build them. *)
Definition tutor_request (E : Env) (user_input : string)
  (history : list turn) : chat_request :=
  ChatRequest "gpt-4o" (ai_tutor_messages E user_input history) 500 (7 # 10).

Definition suggestion_request (E : Env) (tutor_message : string)
  : chat_request :=
  ChatRequest "gpt-4o-mini" (suggestion_messages E tutor_message)
    150 (8 # 10).

(** The text [ai_tutor] returns when its call raises with [str(e) = e]. *)
Definition tutor_error (e : string) : string :=
  "Error: " ++ e ++ nl ++ nl
  ++ "Please check your API key/quota and connection.".

(** The text one turn adds to the transcript of the study-guide request,
    and the text of all turns. *)
Definition turn_text (t : turn) : string :=
  "STUDENT: " ++ fst t ++ nl ++ nl
  ++ (if truthy_opt (snd t)
      then "TUTOR: " ++ (match snd t with Some a => a | None => "" end)
           ++ nl ++ nl
      else "").

Definition transcript_text (history : list turn) : string :=
  fold_right (fun t rest => turn_text t ++ rest) "" history.

(** [set_text_color] calls, which only the skip handler makes. *)
Definition is_text_color (c : pdf_call) : bool :=
  match c with
  | set_text_color _ _ _ => true
  | _ => false
  end.

(** A computation that only adds calls satisfying [P] to the FPDF object,
    and that raises only when the object raises on a call. *)
Definition tame (E : Env) (P : pdf_call -> bool) {A : Type} (m : PDF A)
  : Prop :=
  forall st r st',
    m st = (r, st') ->
    (exists added,
       calls st' = (calls st ++ added)%list
       /\ Forall (fun c => P c = true) added)
    /\ (forall e, r = inl e -> exists log c, fpdf_raises E log c = true).

Module Scenario.

(** The services of [Demo.env], with a transcription that answers
    [transcription]. *)
Definition listening (transcription completion : api_result) : Env := {|
  SYSTEM_PROMPT := "You are a tutor.";
  SUGGESTED_RESPONSES_PROMPT := "Generate 3 responses.";
  SUMMARY_SYSTEM_PROMPT := "Write a study guide.";
  chat_completions_create := fun _ _ => completion;
  audio_transcriptions_create := fun _ _ => transcription;
  audio_open_raises := fun _ _ => false;
  audio_speech_create := fun _ _ _ => Some "/tmp/speech.mp3";
  speech_tempfile_raises := fun _ => false;
  FPDF_available := true;
  fpdf_raises := fun _ _ => false;
  fpdf_output := fun _ => Some "/tmp/guide.pdf";
  now := "2025-01-01 09:00";
  text_file_write := fun _ => Some "/tmp/guide.txt"
|}.

(** The recording cannot be opened: the block of [transcribe_audio] fails
    before its hosted call. *)
Definition missing_file : Env := {|
  SYSTEM_PROMPT := "You are a tutor.";
  SUGGESTED_RESPONSES_PROMPT := "Generate 3 responses.";
  SUMMARY_SYSTEM_PROMPT := "Write a study guide.";
  chat_completions_create := fun _ _ => Reply "Hello";
  audio_transcriptions_create := fun _ _ => Failure "No such file";
  audio_open_raises := fun _ _ => true;
  audio_speech_create := fun _ _ _ => None;
  speech_tempfile_raises := fun _ => true;
  FPDF_available := true;
  fpdf_raises := fun _ _ => false;
  fpdf_output := fun _ => Some "/tmp/guide.pdf";
  now := "2025-01-01 09:00";
  text_file_write := fun _ => Some "/tmp/guide.txt"
|}.

End Scenario.

(** * Properties *)

(** ** Text *)

Section TextFacts.

Lemma prefix_drop p : forall s,
  String.prefix p s = true -> s = p ++ drop (String.length p) s.
Proof.
  induction p as [|a p IH]; intros s H.
  - reflexivity.
  - destruct s as [|b s]; simpl in H; [discriminate|].
    destruct (ascii_dec a b) as [->|]; [|discriminate].
    simpl. f_equal. now apply IH.
Qed.

Lemma prefix_app p : forall s, String.prefix p (p ++ s) = true.
Proof.
  induction p as [|a p IH]; intros s; simpl.
  - now destruct s.
  - destruct (ascii_dec a a); [apply IH | congruence].
Qed.

Lemma partition_sound sep : forall s a b,
  partition sep s = Some (a, b) -> s = a ++ sep ++ b.
Proof.
  induction s as [|c s IH]; intros a b H; cbn [partition] in H;
    [discriminate|].
  destruct (String.prefix sep (String c s)) eqn:Hp.
  - inversion H; subst. cbn [append]. now apply prefix_drop.
  - destruct (partition sep s) as [[a' b']|]; [|discriminate].
    inversion H; subst. simpl. f_equal. now apply IH.
Qed.

Lemma partition_complete sep b : sep <> "" -> forall a,
  partition sep (a ++ sep ++ b) <> None.
Proof.
  intros Hsep. induction a as [|c a IH].
  - simpl. destruct sep as [|x sep]; [congruence|].
    change (String x sep ++ b) with (String x (sep ++ b)).
    cbn [partition].
    change (String x (sep ++ b)) with (String x sep ++ b).
    now rewrite prefix_app.
  - change (String c a ++ sep ++ b) with (String c (a ++ sep ++ b)).
    cbn [partition].
    destruct (String.prefix sep (String c (a ++ sep ++ b))); [discriminate|].
    destruct (partition sep (a ++ sep ++ b)) as [[a' b']|]; [discriminate|].
    now elim IH.
Qed.

Lemma contains_iff sep s : sep <> "" ->
  contains sep s = true <-> exists a b, s = a ++ sep ++ b.
Proof.
  intros Hsep. unfold contains. split.
  - destruct (partition sep s) as [[a b]|] eqn:Hp; [|discriminate].
    intros _. exists a, b. now apply partition_sound.
  - intros (a & b & ->).
    destruct (partition sep (a ++ sep ++ b)) eqn:Hp; [reflexivity|].
    now apply partition_complete in Hp.
Qed.

Lemma rstrip_all_space s : rstrip s = "" <-> all_space s = true.
Proof.
  induction s as [|c s IH]; simpl.
  - tauto.
  - destruct (rstrip s) eqn:Hr.
    + destruct (isspace c); simpl.
      * tauto.
      * split; discriminate.
    + split; [discriminate|].
      intros H. apply andb_true_iff in H. destruct H as [_ H].
      apply IH in H. discriminate.
Qed.

Lemma lstrip_all_space s : lstrip s = "" <-> all_space s = true.
Proof.
  induction s as [|c s IH]; simpl.
  - tauto.
  - destruct (isspace c); simpl; [exact IH|]. split; discriminate.
Qed.

Lemma all_space_lstrip s : all_space (lstrip s) = all_space s.
Proof.
  induction s as [|c s IH]; simpl; [reflexivity|].
  destruct (isspace c) eqn:Hc; simpl; [exact IH|]. now rewrite Hc.
Qed.

Lemma strip_empty_iff s : strip s = "" <-> all_space s = true.
Proof.
  unfold strip. rewrite rstrip_all_space, all_space_lstrip. tauto.
Qed.

Lemma all_space_app x y :
  all_space (x ++ y) = all_space x && all_space y.
Proof.
  induction x as [|c x IH]; simpl; [reflexivity|].
  now rewrite IH, andb_assoc.
Qed.

Lemma rstrip_app_space x y :
  all_space y = true -> rstrip (x ++ y) = rstrip x.
Proof.
  intros Hy. induction x as [|c x IH]; simpl.
  - now apply rstrip_all_space.
  - now rewrite IH.
Qed.

Lemma rstrip_length s : (String.length (rstrip s) <= String.length s)%nat.
Proof.
  induction s as [|c s IH]; simpl; [lia|].
  destruct (rstrip s); simpl in *.
  - destruct (isspace c); simpl; lia.
  - lia.
Qed.

Lemma rstrip_idem s : rstrip (rstrip s) = rstrip s.
Proof.
  induction s as [|c s IH]; simpl; [reflexivity|].
  destruct (rstrip s) as [|d t] eqn:Hr.
  - destruct (isspace c) eqn:Hc; simpl; [reflexivity|]. now rewrite Hc.
  - cbn [rstrip]. cbn [rstrip] in IH. now rewrite IH.
Qed.

Lemma string_app_length x y :
  String.length (x ++ y) = (String.length x + String.length y)%nat.
Proof. induction x; simpl; [reflexivity | now rewrite IHx]. Qed.

(** What follows a space in a right-stripped string is not blank. *)
Lemma rstrip_fixed_tail x y :
  rstrip (x ++ " " ++ y) = x ++ " " ++ y -> all_space y = false.
Proof.
  intros H. destruct (all_space y) eqn:Hy; [|reflexivity].
  assert (Hsp : all_space (" " ++ y) = true) by (simpl; exact Hy).
  rewrite (rstrip_app_space x _ Hsp) in H.
  pose proof (rstrip_length x) as Hl. rewrite H in Hl.
  rewrite string_app_length in Hl. simpl in Hl. lia.
Qed.

Lemma strip_rstrip_fixed s : rstrip (strip s) = strip s.
Proof. unfold strip. apply rstrip_idem. Qed.

Lemma truthy_iff s : truthy s = true <-> s <> "".
Proof. destruct s; simpl; split; congruence. Qed.

End TextFacts.

(** ** The suggestion generator *)

Section Suggestions.

Lemma append_assoc3 a b : a ++ ". " ++ b = (a ++ ".") ++ " " ++ b.
Proof. induction a as [|c a IH]; simpl; [reflexivity | now f_equal]. Qed.

Lemma suggestion_step_app suggestions line :
  suggestion_step suggestions line
  = (suggestions ++ suggestion_step [] line)%list.
Proof.
  unfold suggestion_step.
  destruct (strip line) as [|c0 rest]; [now rewrite app_nil_r|].
  destruct (isdigit_char c0 && contains ". " (String c0 rest));
    [|now rewrite app_nil_r].
  destruct (split1 ". " (String c0 rest)) as [|p0 [|p1 [|p2 l]]];
    try now rewrite app_nil_r.
  destruct (truthy (strip p1)); [reflexivity | now rewrite app_nil_r].
Qed.

Lemma suggestion_loop lines : forall suggestions,
  fold_left suggestion_step lines suggestions
  = (suggestions ++ flat_map (suggestion_step []) lines)%list.
Proof.
  induction lines as [|line lines IH]; intros suggestions;
    cbn [fold_left flat_map].
  - now rewrite app_nil_r.
  - now rewrite IH, suggestion_step_app, app_assoc.
Qed.

Lemma split_char_length sep s : (1 <=? List.length (split_char sep s))%nat = true.
Proof.
  destruct s as [|c s]; [reflexivity|]. cbn [split_char].
  destruct (Ascii.eqb c sep); [reflexivity|].
  now destruct (split_char sep s).
Qed.

(** C4 (amended).  The parser works on the trimmed line.  A line
    qualifies exactly when its trimmed text starts with a digit and
    contains ". " anywhere; the suggestion is then the text after the first
    ". ", trimmed, which is never empty, and it is appended to the list.
    A line that does not qualify leaves the list as it is.  The parser
    returns the first three suggestions of the qualifying lines, in the
    order of the lines, or, when no line qualifies, the first three
    non-blank lines, trimmed. *)
Theorem suggestion_step_qualifies :
  (forall (suggestions : list string) (line : string),
     let line_strip := strip line in
     let qualifies :=
       exists c0 rest a b,
         line_strip = String c0 rest /\ isdigit_char c0 = true
         /\ line_strip = a ++ ". " ++ b in
     (qualifies ->
      exists a b,
        partition ". " line_strip = Some (a, b)
        /\ strip b <> ""
        /\ suggestion_step suggestions line = (suggestions ++ [strip b])%list)
     /\ (~ qualifies -> suggestion_step suggestions line = suggestions))
  /\ (forall suggestions_text : string,
        let lines := split_lines (strip suggestions_text) in
        let numbered := flat_map (suggestion_step []) lines in
        parse_suggestions suggestions_text
        = firstn 3
            match numbered with
            | [] =>
                firstn 3
                  (map strip (filter (fun line => truthy (strip line)) lines))
            | _ => numbered
            end).
Proof.
  split.
  2:{ intros suggestions_text lines numbered. unfold parse_suggestions.
      fold lines. rewrite suggestion_loop. cbn [app]. fold numbered.
      unfold lines at 1, split_lines. now rewrite split_char_length. }
  intros suggestions line.
  cbv zeta. unfold suggestion_step.
  pose proof (strip_rstrip_fixed line) as Hfix.
  destruct (strip line) as [|c0 rest] eqn:Hs.
  - split; [|reflexivity].
    intros (c & r & _ & _ & H & _). discriminate.
  - destruct (isdigit_char c0) eqn:Hd.
    + destruct (contains ". " (String c0 rest)) eqn:Hc.
      * cbn [andb]. unfold contains in Hc. unfold split1.
        destruct (partition ". " (String c0 rest)) as [[a b]|] eqn:Hp;
          [|discriminate].
        assert (Hb : strip b <> "").
        { pose proof (partition_sound _ _ _ _ Hp) as Heq.
          rewrite Heq, append_assoc3 in Hfix.
          apply rstrip_fixed_tail in Hfix.
          intros Hb. apply strip_empty_iff in Hb. congruence. }
        apply truthy_iff in Hb as Ht. rewrite Ht.
        split.
        -- intros _. exists a, b. auto.
        -- intros Hn. elim Hn. exists c0, rest, a, b.
           repeat split; auto. now apply partition_sound.
      * cbn [andb]. split; [|reflexivity].
        intros (c & r & a & b & _ & _ & H).
        assert (contains ". " (String c0 rest) = true).
        { apply contains_iff; [discriminate|]. now exists a, b. }
        congruence.
    + cbn [andb]. split; [|reflexivity].
      intros (c & r & a & b & H & Hd' & _). inversion H; subst. congruence.
Qed.

Lemma suggestion_step_qualifies_witness :
  exists a b,
    partition ". " (strip " 2. ok ") = Some (a, b)
    /\ strip b <> ""
    /\ suggestion_step ["first"] " 2. ok " = (["first"] ++ [strip b])%list.
Proof.
  apply (proj1 (proj1 suggestion_step_qualifies ["first"] " 2. ok ")).
  exists "2"%char, ". ok", "2", "ok". repeat split; reflexivity.
Defined.

(** C4, as stated, fails: the line below has a leading digit that is not
    followed by ". " (its ". " comes later), and it yields a suggestion. *)
Lemma later_marker_qualifies :
  startswith "1 apple. banana" "1. " = false
  /\ suggestion_step [] "1 apple. banana" = ["banana"]
  /\ parse_suggestions "1 apple. banana" = ["banana"].
Proof. repeat split; reflexivity. Qed.

(** C6.  On the numbered text of three lines "1. a", "2. b", "3. c" the
    parser returns the three suggestions a, b, c, in that order; so does
    the suggestion generator when its completion call answers that text. *)
Theorem parse_suggestions_numbered :
  parse_suggestions ("1. a" ++ nl ++ "2. b" ++ nl ++ "3. c") = ["a"; "b"; "c"]
  /\ fst (generate_suggested_responses
            (Demo.env (Reply ("1. a" ++ nl ++ "2. b" ++ nl ++ "3. c"))
               Demo.never)
            "What is 1/4?" [])
     = ["a"; "b"; "c"].
Proof. split; reflexivity. Qed.

(** C9.  On the empty message, and on a message that begins with "Error",
    the suggestion generator returns the empty list and the trace of hosted
    calls is unchanged: no completion call is made. *)
Theorem generate_suggested_responses_guard (E : Env) (tutor_message : string)
  (tr : list api_call) :
  tutor_message = "" \/ startswith tutor_message "Error" = true ->
  generate_suggested_responses E tutor_message tr = ([], tr).
Proof.
  intros [-> | H]; unfold generate_suggested_responses.
  - reflexivity.
  - rewrite H, orb_true_r. reflexivity.
Qed.

Lemma generate_suggested_responses_guard_witness :
  generate_suggested_responses (Demo.env (Reply Demo.numbered) Demo.never)
    "Error: timeout" [] = ([], [])
  /\ generate_suggested_responses (Demo.env (Reply Demo.numbered) Demo.never)
       "" [] = ([], []).
Proof.
  split; apply generate_suggested_responses_guard.
  - right. reflexivity.
  - left. reflexivity.
Defined.

End Suggestions.


(** ** The suggestion buttons *)

Section Buttons.

Lemma update_suggestions_step_eq suggestions updates i :
  update_suggestions_step suggestions updates i
  = (updates ++ [suggestion_button suggestions i])%list.
Proof.
  unfold update_suggestions_step, suggestion_button.
  destruct (nth_error suggestions i) as [s|]; [|reflexivity].
  now destruct (truthy s && negb (startswith s "Error")).
Qed.

Lemma update_suggestions_eq suggestions :
  update_suggestions suggestions
  = (suggestion_button suggestions 0, suggestion_button suggestions 1,
     suggestion_button suggestions 2).
Proof.
  unfold update_suggestions. cbn [seq fold_left].
  rewrite !update_suggestions_step_eq. reflexivity.
Qed.

(** C10.  A button returned by [update_suggestions] is visible only if the
    suggestion at its index exists, is not empty and does not begin with
    "Error", and the button then carries that suggestion's text; so the
    list holding only "Error generating suggestions.", which the generator
    returns when its completion call fails, makes all three buttons
    hidden. *)
Theorem visible_button_is_clean :
  (forall (suggestions : list string) (i : nat),
     (i < 3)%nat ->
     button_visible (nth_button (update_suggestions suggestions) i) = true ->
     exists s,
       nth_error suggestions i = Some s
       /\ button_value (nth_button (update_suggestions suggestions) i) = Some s
       /\ s <> "" /\ startswith s "Error" = false)
  /\ update_suggestions ["Error generating suggestions."]
     = (hidden_button, hidden_button, hidden_button)
  /\ (forall (E : Env) (tutor_message : string) (tr : list api_call) err,
        negb (truthy tutor_message) || startswith tutor_message "Error" = false ->
        chat_completions_create E tr
          (ChatRequest "gpt-4o-mini" (suggestion_messages E tutor_message)
             150 (8 # 10)) = Failure err ->
        fst (generate_suggested_responses E tutor_message tr)
        = ["Error generating suggestions."]
        /\ update_suggestions
             (fst (generate_suggested_responses E tutor_message tr))
           = (hidden_button, hidden_button, hidden_button)).
Proof.
  split; [|split].
  - intros suggestions i Hi Hv.
    rewrite update_suggestions_eq in *.
    assert (Hb : nth_button
                   (suggestion_button suggestions 0,
                    suggestion_button suggestions 1,
                    suggestion_button suggestions 2) i
                 = suggestion_button suggestions i).
    { destruct i as [|[|[|i]]]; try reflexivity. lia. }
    rewrite Hb in *. unfold suggestion_button in *.
    destruct (nth_error suggestions i) as [s|]; [|discriminate].
    destruct (truthy s) eqn:Ht; [|discriminate].
    destruct (startswith s "Error") eqn:He; [discriminate|].
    exists s. repeat split; auto. now apply truthy_iff.
  - reflexivity.
  - intros E tutor_message tr err Hg Hf.
    unfold generate_suggested_responses. rewrite Hg.
    cbn [bind ret Monad_API chat]. rewrite Hf. split; reflexivity.
Qed.

Lemma visible_button_is_clean_witness :
  exists s,
    nth_error ["I see!"; "Error"; ""] 0 = Some s
    /\ button_value
         (nth_button (update_suggestions ["I see!"; "Error"; ""]) 0) = Some s
    /\ s <> "" /\ startswith s "Error" = false.
Proof.
  apply (proj1 visible_button_is_clean ["I see!"; "Error"; ""] 0%nat).
  - lia.
  - reflexivity.
Defined.

End Buttons.

(** ** The completion client *)

Section Completion.

Variable E : Env.

Lemma ai_tutor_step_eq messages t :
  ai_tutor_step messages t = (messages ++ turn_messages t)%list.
Proof.
  destruct t as [human [a|]]; unfold ai_tutor_step, turn_messages;
    cbn [fst snd truthy_opt].
  - destruct (truthy human), (truthy a); cbn [app];
      rewrite ?app_nil_r, <- ?app_assoc; reflexivity.
  - destruct (truthy human); cbn [app]; rewrite ?app_nil_r; reflexivity.
Qed.

Lemma ai_tutor_loop history : forall messages,
  fold_left ai_tutor_step history messages
  = (messages ++ flat_map turn_messages history)%list.
Proof.
  induction history as [|t history IH]; intros messages; cbn [fold_left flat_map].
  - now rewrite app_nil_r.
  - now rewrite IH, ai_tutor_step_eq, app_assoc.
Qed.

Lemma turn_messages_complete t :
  turn_complete t -> turn_messages t = turn_pair t.
Proof.
  intros [Hh Ha]. unfold turn_messages, turn_pair. now rewrite Hh, Ha.
Qed.

(** C7 (amended).  The request of [ai_tutor] holds the system message
    first and the new user utterance last; between them each turn, in
    transcript order, contributes a user message when its user text is not
    empty, followed by an assistant message when its assistant text is
    present and not empty.  When every turn has both texts, that is one
    user and one assistant message per turn.  This list is what the
    completion call receives. *)
Theorem ai_tutor_request (user_input : string) (history : list turn) :
  ai_tutor_messages E user_input history
  = (Message "system" (SYSTEM_PROMPT E)
       :: flat_map turn_messages history ++ [Message "user" user_input])%list
  /\ (Forall turn_complete history ->
      ai_tutor_messages E user_input history
      = (Message "system" (SYSTEM_PROMPT E)
           :: flat_map turn_pair history ++ [Message "user" user_input])%list)
  /\ (forall tr,
        snd (ai_tutor E user_input history tr)
        = (tr ++ [ChatCompletion
                    (ChatRequest "gpt-4o"
                       (ai_tutor_messages E user_input history)
                       500 (7 # 10))])%list).
Proof.
  assert (H : ai_tutor_messages E user_input history
    = (Message "system" (SYSTEM_PROMPT E)
         :: flat_map turn_messages history ++ [Message "user" user_input])%list).
  { unfold ai_tutor_messages. rewrite ai_tutor_loop. reflexivity. }
  split; [exact H|split].
  - intros Hall. rewrite H. do 2 f_equal. clear H.
    induction Hall as [|t l Ht _ IH]; cbn [flat_map]; [reflexivity|].
    now rewrite IH, (turn_messages_complete t Ht).
  - intros tr. unfold ai_tutor. cbn [bind Monad_API chat].
    now destruct (chat_completions_create E tr _).
Qed.

End Completion.

Lemma ai_tutor_request_witness :
  ai_tutor_messages (Demo.env (Reply "Hello") Demo.never) "And 1/2?"
    [("What is 1/4?", Some "One of four equal parts.")]
  = [Message "system" "You are a tutor.";
     Message "user" "What is 1/4?";
     Message "assistant" "One of four equal parts.";
     Message "user" "And 1/2?"].
Proof.
  apply (proj1 (proj2 (ai_tutor_request (Demo.env (Reply "Hello") Demo.never)
                         "And 1/2?"
                         [("What is 1/4?", Some "One of four equal parts.")]))).
  repeat constructor.
Defined.

(** C7, as stated, fails: a turn whose assistant text is absent contributes
    a user message and no assistant message. *)
Lemma turn_without_reply_has_no_assistant_message :
  ai_tutor_messages (Demo.env (Reply "Hello") Demo.never) "And 1/2?"
    [("What is 1/4?", None)]
  = [Message "system" "You are a tutor.";
     Message "user" "What is 1/4?";
     Message "user" "And 1/2?"].
Proof. reflexivity. Qed.

(** ** Study-guide content *)

Section StudyGuideContent.

Lemma rstrip_head c s :
  isspace c = false -> exists t, rstrip (String c s) = String c t.
Proof.
  intros Hc. cbn [rstrip]. destruct (rstrip s); [rewrite Hc|]; eauto.
Qed.

Lemma strip_head c s :
  isspace c = false -> exists t, strip (String c s) = String c t.
Proof.
  intros Hc. unfold strip. cbn [lstrip]. rewrite Hc. now apply rstrip_head.
Qed.

Lemma ensure_heading_starts content :
  startswith (strip (ensure_heading content)) "#" = true.
Proof.
  unfold ensure_heading.
  destruct (startswith (strip content) "#") eqn:H; cbn [negb]; [exact H|].
  cbn [append].
  match goal with
  | |- context [strip (String ?c ?s)] =>
      destruct (strip_head c s) as [t ->]; [reflexivity|]
  end.
  now destruct t.
Qed.

(** C5 (amended).  The check is made on the trimmed text and for the
    character "#", the marker of a heading of any level.  When the trimmed
    text returned by the completion call does not begin with "#", the
    level-1 heading line "# Study Guide: Tutoring Session" and a blank line
    are prepended, and the returned content begins with that level-1
    heading; otherwise the text is returned as it is.  In both cases the
    returned content, trimmed, begins with "#". *)
Theorem study_guide_heading (E : Env) (t : turn) (chat_history : list turn)
  (tr : list api_call) (study_guide_content : string) :
  chat_completions_create E tr
    (ChatRequest "gpt-4o" (study_guide_messages E (t :: chat_history))
       2000 (5 # 10)) = Reply study_guide_content ->
  let returned := fst (generate_study_guide_content E (t :: chat_history) tr) in
  (startswith (strip study_guide_content) "#" = false ->
   returned
   = "# Study Guide: Tutoring Session" ++ nl ++ nl ++ study_guide_content
   /\ startswith returned "# " = true)
  /\ (startswith (strip study_guide_content) "#" = true ->
      returned = study_guide_content)
  /\ startswith (strip returned) "#" = true.
Proof.
  intros Hr returned.
  assert (Hret : returned = ensure_heading study_guide_content).
  { unfold returned, generate_study_guide_content.
    cbn [bind ret Monad_API chat]. now rewrite Hr. }
  rewrite Hret. split; [|split].
  - intros H. unfold ensure_heading. rewrite H. split; reflexivity.
  - intros H. unfold ensure_heading. now rewrite H.
  - apply ensure_heading_starts.
Qed.

Lemma study_guide_heading_witness :
  fst (generate_study_guide_content
         (Demo.env (Reply "Fractions are parts.") Demo.never)
         [("What is 1/4?", Some "One of four equal parts.")] [])
  = "# Study Guide: Tutoring Session" ++ nl ++ nl ++ "Fractions are parts."
  /\ startswith
       (fst (generate_study_guide_content
               (Demo.env (Reply "Fractions are parts.") Demo.never)
               [("What is 1/4?", Some "One of four equal parts.")] []))
       "# " = true.
Proof.
  apply (proj1 (study_guide_heading
                  (Demo.env (Reply "Fractions are parts.") Demo.never)
                  ("What is 1/4?", Some "One of four equal parts.") [] []
                  "Fractions are parts." eq_refl)).
  reflexivity.
Defined.

(** C5, as stated, fails: a text that begins with a level-2 heading does
    not begin with the level-1 marker "# ", yet nothing is prepended, and
    the returned content begins with a level-2 heading. *)
Lemma level_two_heading_is_kept :
  startswith "## Fractions" "# " = false
  /\ fst (generate_study_guide_content
            (Demo.env (Reply "## Fractions") Demo.never)
            [("What is 1/4?", Some "One of four equal parts.")] [])
     = "## Fractions".
Proof. split; reflexivity. Qed.

End StudyGuideContent.

(** ** Rendering, line by line *)

Section Rendering.

Variable E : Env.

Lemma steady_pdf c : steady (pdf E c).
Proof.
  intros st r st' H. unfold pdf in H.
  destruct (fpdf_raises E (calls st) c); inversion H; subst; cbn.
  - split; [reflexivity|]. exists []. now rewrite app_nil_r.
  - split; [reflexivity|]. now exists [c].
Qed.

Lemma steady_ret {A} (a : A) : steady (ret a : PDF A).
Proof.
  intros st r st' H. inversion H; subst.
  split; [reflexivity|]. exists []. now rewrite app_nil_r.
Qed.

Lemma steady_bind {A B} (m : PDF A) (f : A -> PDF B) :
  steady m -> (forall a, steady (f a)) -> steady (bind m f).
Proof.
  intros Hm Hf st r st' H. cbn [bind Monad_PDF] in H.
  destruct (m st) as [[e|a] st1] eqn:Hm1.
  - inversion H; subst. eapply Hm; eauto.
  - destruct (Hm _ _ _ Hm1) as [Hv [d1 Hc]].
    destruct (Hf a _ _ _ H) as [Hv' [d2 Hc']].
    split; [congruence|]. exists (d1 ++ d2)%list.
    now rewrite Hc', Hc, app_assoc.
Qed.


Ltac steady_chain :=
  repeat first
    [ apply steady_pdf
    | apply steady_ret
    | apply steady_bind; [|intros ?]
    | match goal with
      | |- steady (if ?c then _ else _) => destruct c
      | |- steady (match ?x with _ => _ end) => destruct x
      end ].

(** [render_line] binds [line_strip] before its first call on the FPDF
    object, and only adds calls to the object. *)
Lemma render_line_binds line st r st' :
  render_line E line st = (r, st') ->
  line_strip_var st' = Some (strip line)
  /\ exists added, calls st' = (calls st ++ added)%list.
Proof.
  unfold render_line. cbn [bind Monad_PDF]. unfold assign_line_strip at 1.
  match goal with
  | |- ?m ?s = _ -> _ => assert (Hs : steady m) by steady_chain
  end.
  intros H. apply Hs in H. exact H.
Qed.


Lemma write_skip_marker_returns st :
  fst (write_skip_marker E st) = inr tt.
Proof.
  unfold write_skip_marker, try_except.
  match goal with
  | |- context [match ?m st with _ => _ end] =>
      destruct (m st) as [[e|[]] st1]
  end; reflexivity.
Qed.

(** One turn of the loop returns, whatever the line and the state. *)
Lemma process_line_returns line st :
  fst (process_line E line st) = inr tt.
Proof.
  unfold process_line, try_except.
  destruct (render_line E line st) as [[e|[]] st1] eqn:Hr; [|reflexivity].
  apply render_line_binds in Hr. destruct Hr as [Hv _].
  cbn [bind Monad_PDF]. unfold read_line_strip. rewrite Hv.
  apply write_skip_marker_returns.
Qed.


(** The loop returns: no line makes it raise. *)
Lemma for_each_returns lines : forall st,
  fst (for_each (process_line E) lines st) = inr tt.
Proof.
  induction lines as [|line lines IH]; intros st; cbn [for_each].
  - reflexivity.
  - cbn [bind Monad_PDF].
    pose proof (process_line_returns line st) as Hp.
    destruct (process_line E line st) as [[e|[]] st1]; [discriminate|].
    apply IH.
Qed.



Lemma for_each_cons line after st :
  for_each (process_line E) (line :: after) st
  = for_each (process_line E) after (snd (process_line E line st)).
Proof.
  cbn [for_each bind Monad_PDF].
  pose proof (process_line_returns line st) as Hp.
  now destruct (process_line E line st) as [[e|[]] st1].
Qed.

Lemma pdf_accepted log v c :
  fpdf_raises E log c = false ->
  pdf E c (PdfState log v) = (inr tt, PdfState (log ++ [c]) v).
Proof. intros H. unfold pdf. cbn [calls line_strip_var]. now rewrite H. Qed.



(** Once the document is open, [create_pdf] returns what [pdf.output]
    returns: the loop over the lines cannot make it return [None]. *)
Lemma create_pdf_outputs study_guide_text :
  FPDF_available E = true ->
  accepts E [] opening_calls = true ->
  create_pdf E study_guide_text
  = fpdf_output E
      (calls (snd (create_pdf_document E study_guide_text (PdfState [] None)))).
Proof.
  intros Hav Hop. unfold create_pdf. rewrite Hav. cbn [negb].
  unfold create_pdf_document, opening_calls in *.
  cbn [accepts app] in Hop.
  repeat (apply andb_true_iff in Hop; destruct Hop as [?H Hop]).
  repeat match goal with
         | H : negb _ = true |- _ => apply negb_true_iff in H
         end.
  cbn [bind Monad_PDF].
  repeat (rewrite pdf_accepted by assumption; cbn [app]).
  pose proof (for_each_returns (split_lines (strip study_guide_text))
                (PdfState
                   [FPDF_new; add_page; set_auto_page_break true 15;
                    set_font "Arial" "" 12] None)) as Hr.
  destruct (for_each (process_line E) _ _) as [[e|[]] st1]; [discriminate|].
  reflexivity.
Qed.




End Rendering.




(** ** The handlers *)

Section Handlers.

Variable E : Env.

Lemma bind_run {A B} (m : API A) (f : A -> API B) tr :
  bind m f tr = f (fst (m tr)) (snd (m tr)).
Proof. cbn [bind Monad_API]. now destruct (m tr). Qed.

(** What [ai_tutor] returns: the reply, or the error text. *)
Lemma ai_tutor_returns user_input history tr :
  fst (ai_tutor E user_input history tr)
  = match chat_completions_create E tr
            (ChatRequest "gpt-4o" (ai_tutor_messages E user_input history)
               500 (7 # 10)) with
    | Reply reply => reply
    | Failure e =>
        "Error: " ++ e ++ nl ++ nl
        ++ "Please check your API key/quota and connection."
    end.
Proof.
  unfold ai_tutor. rewrite bind_run. cbn [chat fst snd].
  now destruct (chat_completions_create E tr _).
Qed.

(** The text a handler shows for a failed or empty transcription, or the
    turn of a completed exchange. *)
Lemma process_audio_history path chat_history voice_enabled tr :
  let user_text := fst (transcribe_audio E (Some path) tr) in
  let tr1 := snd (transcribe_audio E (Some path) tr) in
  out_history
    (fst (process_audio_and_update E (Some path) chat_history voice_enabled tr))
  = (chat_history
     ++ [if negb (truthy user_text) || startswith user_text "Error" then
           ("(Audio input)",
            Some (if truthy user_text then user_text
                  else "Audio could not be transcribed or was empty."))
         else
           (user_text, Some (fst (ai_tutor E user_text chat_history tr1)))])%list.
Proof.
  cbv zeta. unfold process_audio_and_update. rewrite bind_run.
  destruct (negb (truthy (fst (transcribe_audio E (Some path) tr)))
            || startswith (fst (transcribe_audio E (Some path) tr)) "Error").
  - reflexivity.
  - rewrite !bind_run. reflexivity.
Qed.

Lemma process_text_history message chat_history voice_enabled tr :
  strip message <> "" ->
  out_history
    (fst (process_text_and_update E message chat_history voice_enabled tr))
  = (chat_history
     ++ [(message, Some (fst (ai_tutor E message chat_history tr)))])%list.
Proof.
  intros H. apply truthy_iff in H.
  unfold process_text_and_update. rewrite H. cbn [negb].
  rewrite !bind_run. reflexivity.
Qed.

End Handlers.

(** C3 (amended).  A submit-text event whose message is not empty after
    trimming appends exactly one turn: the message with the reply of the
    completion call or, when that call fails, with the error text.  A
    submit-audio event with a recording appends exactly one turn: the
    transcribed text with the reply or error text, or "(Audio input)" with
    the transcription error when the transcription is empty or failed.
    The turns already in the transcript are kept, in order.  A message
    that is empty after trimming, and an event without recording, leave
    the transcript as it is. *)
Theorem submit_appends_one_turn (E : Env) (chat_history : list turn)
  (voice_enabled : bool) (tr : list api_call) :
  (forall message,
     strip message <> "" ->
     exists bot_message,
       out_history
         (fst (process_text_and_update E message chat_history voice_enabled tr))
       = (chat_history ++ [(message, Some bot_message)])%list
       /\ bot_message
          = match chat_completions_create E tr
                    (ChatRequest "gpt-4o"
                       (ai_tutor_messages E message chat_history)
                       500 (7 # 10)) with
            | Reply reply => reply
            | Failure e =>
                "Error: " ++ e ++ nl ++ nl
                ++ "Please check your API key/quota and connection."
            end)
  /\ (forall path,
        let user_text := fst (transcribe_audio E (Some path) tr) in
        let tr1 := snd (transcribe_audio E (Some path) tr) in
        out_history
          (fst (process_audio_and_update E (Some path) chat_history
                  voice_enabled tr))
        = (chat_history
           ++ [if negb (truthy user_text) || startswith user_text "Error" then
                 ("(Audio input)",
                  Some (if truthy user_text then user_text
                        else "Audio could not be transcribed or was empty."))
               else
                 (user_text,
                  Some (fst (ai_tutor E user_text chat_history tr1)))])%list)
  /\ (forall message,
        strip message = "" ->
        process_text_and_update E message chat_history voice_enabled tr
        = (("", chat_history, None,
            (hidden_button, hidden_button, hidden_button)), tr))
  /\ process_audio_and_update E None chat_history voice_enabled tr
     = ((None, chat_history, None,
         (hidden_button, hidden_button, hidden_button)), tr).
Proof.
  split; [|split; [|split]].
  - intros message H. eexists. split.
    + now apply process_text_history.
    + apply ai_tutor_returns.
  - intros path. apply process_audio_history.
  - intros message H. unfold process_text_and_update. now rewrite H.
  - reflexivity.
Qed.

Lemma submit_appends_one_turn_witness :
  exists bot_message,
    out_history
      (fst (process_text_and_update (Demo.env (Failure "timeout") Demo.never)
              "And 1/2?" Demo.one_turn true []))
    = (Demo.one_turn ++ [("And 1/2?", Some bot_message)])%list
    /\ bot_message
       = match chat_completions_create (Demo.env (Failure "timeout") Demo.never)
                 []
                 (ChatRequest "gpt-4o"
                    (ai_tutor_messages (Demo.env (Failure "timeout") Demo.never)
                       "And 1/2?" Demo.one_turn)
                    500 (7 # 10)) with
         | Reply reply => reply
         | Failure e =>
             "Error: " ++ e ++ nl ++ nl
             ++ "Please check your API key/quota and connection."
         end.
Proof.
  apply (proj1 (submit_appends_one_turn (Demo.env (Failure "timeout") Demo.never)
                  Demo.one_turn true []) "And 1/2?").
  discriminate.
Defined.

(** C3, as stated, fails: a message of one space is not empty, and the
    handler appends no turn for it. *)
Lemma blank_message_appends_nothing :
  " " <> ""
  /\ out_history
       (fst (process_text_and_update (Demo.env (Reply "Hello") Demo.never)
               " " Demo.one_turn true []))
     = Demo.one_turn.
Proof. split; [discriminate | reflexivity]. Qed.

(** ** Export of the study guide *)

Section StudyGuideExport.

Variable E : Env.

(** A text whose trimmed form begins with "#" does not begin with
    "Error". *)
Lemma heading_is_not_error s :
  startswith (strip s) "#" = true -> startswith s "Error" = false.
Proof.
  intros H. destruct s as [|c s]; [reflexivity|].
  unfold startswith. cbn [String.prefix].
  destruct (ascii_dec "E" c) as [<-|]; [|reflexivity].
  destruct (strip_head "E" s) as [t Ht]; [reflexivity|].
  rewrite Ht in H. discriminate.
Qed.

Lemma ensure_heading_is_not_error content :
  startswith (ensure_heading content) "Error" = false.
Proof.
  apply heading_is_not_error, ensure_heading_starts.
Qed.

Lemma save_study_guide_cases text :
  save_study_guide E text
  = if truthy_opt (create_pdf E text) then
      (create_pdf E text, "Study guide created as PDF!")
    else if truthy_opt (create_text_file E text) then
      (create_text_file E text, "Study guide created as Text (PDF failed).")
    else (None, "Error creating study guide file (PDF/Text).").
Proof. reflexivity. Qed.

End StudyGuideExport.

(** C2 (amended).  For a non-empty transcript whose content-generation
    call succeeds, the export returns the PDF path when the PDF renderer
    returns a path, otherwise the text path when the text renderer returns
    one, and an absent path with a failure message exactly when both
    renderers return none.  When the content-generation call fails, the
    export returns an absent path with the generation error, whatever the
    renderers would do. *)
Theorem export_falls_back (E : Env) (t : turn) (chat_history : list turn)
  (tr : list api_call) :
  let request :=
    ChatRequest "gpt-4o" (study_guide_messages E (t :: chat_history))
      2000 (5 # 10) in
  let export := fst (create_and_download_study_guide E (t :: chat_history) tr) in
  (forall content,
     chat_completions_create E tr request = Reply content ->
     let text := ensure_heading content in
     (truthy_opt (create_pdf E text) = true ->
      export = (Build_FileUpdate (create_pdf E text) true,
                "*Study guide created as PDF!*"))
     /\ (truthy_opt (create_pdf E text) = false ->
         truthy_opt (create_text_file E text) = true ->
         export = (Build_FileUpdate (create_text_file E text) true,
                   "*Study guide created as Text (PDF failed).*"))
     /\ (truthy_opt (create_pdf E text) = false ->
         truthy_opt (create_text_file E text) = false ->
         export = (Build_FileUpdate None false,
                   "*Error: Error creating study guide file (PDF/Text).*"))
     /\ (file_value (fst export) = None ->
         truthy_opt (create_pdf E text) = false
         /\ truthy_opt (create_text_file E text) = false))
  /\ (forall e,
        chat_completions_create E tr request = Failure e ->
        export = (Build_FileUpdate None false,
                  "*Error generating content: Error generating study guide: "
                  ++ e ++ "*")).
Proof.
  intros request export. split.
  - intros content Hr text.
    assert (Hex : export
      = let (file_path, status_message) := save_study_guide E text in
        if truthy_opt file_path
        then (Build_FileUpdate file_path true, "*" ++ status_message ++ "*")
        else (Build_FileUpdate None false, "*Error: " ++ status_message ++ "*")).
    { unfold export, create_and_download_study_guide. rewrite bind_run.
      assert (Hg : generate_study_guide_content E (t :: chat_history) tr
                   = (text, (tr ++ [ChatCompletion request])%list)).
      { unfold generate_study_guide_content. rewrite bind_run.
        cbn [chat fst snd]. fold request. now rewrite Hr. }
      rewrite Hg. cbn [fst snd]. unfold text.
      rewrite ensure_heading_is_not_error.
      destruct (save_study_guide E (ensure_heading content)) as [fp sm].
      now destruct (truthy_opt fp). }
    rewrite save_study_guide_cases in Hex.
    destruct (truthy_opt (create_pdf E text)) eqn:Hp.
    + rewrite Hp in Hex. cbn in Hex.
      split; [intros _; exact Hex|].
      split; [discriminate|]. split; [discriminate|].
      intros Hn. rewrite Hex in Hn. cbn in Hn.
      rewrite Hn in Hp. discriminate.
    + destruct (truthy_opt (create_text_file E text)) eqn:Ht.
      * rewrite Ht in Hex. cbn in Hex.
        split; [discriminate|]. split; [intros _ _; exact Hex|].
        split; [discriminate|].
        intros Hn. rewrite Hex in Hn. cbn in Hn.
        rewrite Hn in Ht. discriminate.
      * cbn in Hex.
        split; [discriminate|]. split; [discriminate|].
        split; [intros _ _; exact Hex|]. auto.
  - intros e Hr. unfold export, create_and_download_study_guide.
    rewrite bind_run.
    assert (Hg : generate_study_guide_content E (t :: chat_history) tr
                 = ("Error generating study guide: " ++ e,
                    (tr ++ [ChatCompletion request])%list)).
    { unfold generate_study_guide_content. rewrite bind_run.
      cbn [chat fst snd]. fold request. now rewrite Hr. }
    rewrite Hg. reflexivity.
Qed.

Lemma export_falls_back_witness :
  fst (create_and_download_study_guide
         (Demo.env (Reply "Fractions are parts.") Demo.never)
         Demo.one_turn [])
  = (Build_FileUpdate
       (create_pdf (Demo.env (Reply "Fractions are parts.") Demo.never)
          (ensure_heading "Fractions are parts."))
       true,
     "*Study guide created as PDF!*").
Proof.
  apply (proj1 (proj1 (export_falls_back
                         (Demo.env (Reply "Fractions are parts.") Demo.never)
                         ("What is 1/4?", Some "One of four equal parts.")
                         [] [])
                  "Fractions are parts." eq_refl)).
  reflexivity.
Defined.

(** C2, as stated, fails: when the content-generation call fails, the
    export of a non-empty transcript returns an absent path although
    neither renderer fails; both return a path on the text at hand. *)
Lemma generation_failure_exports_nothing :
  fst (create_and_download_study_guide
         (Demo.env (Failure "quota") Demo.never) Demo.one_turn [])
  = (Build_FileUpdate None false,
     "*Error generating content: Error generating study guide: quota*")
  /\ create_pdf (Demo.env (Failure "quota") Demo.never)
       "Error generating study guide: quota" = Some "/tmp/guide.pdf"
  /\ create_text_file (Demo.env (Failure "quota") Demo.never)
       "Error generating study guide: quota" = Some "/tmp/guide.txt".
Proof. repeat split; reflexivity. Qed.

(** C8.  On the empty transcript the export returns an absent, hidden
    file and the status "Please have a conversation first.", and the trace
    of hosted calls is unchanged: no content-generation call is made.  The
    content generator itself, on the empty transcript, returns its fixed
    text without a call. *)
Theorem export_of_empty_transcript (E : Env) (tr : list api_call) :
  create_and_download_study_guide E [] tr
  = ((Build_FileUpdate None false, "*Please have a conversation first.*"), tr)
  /\ generate_study_guide_content E [] tr
     = ("No conversation history to create a study guide from.", tr).
Proof. split; reflexivity. Qed.

(** * Further properties of the code *)

(** ** What the suggestion parser returns *)

Section ParsedSuggestions.

Lemma lstrip_head s :
  lstrip s = "" \/ exists c t, lstrip s = String c t /\ isspace c = false.
Proof.
  induction s as [|c s IH]; cbn [lstrip]; [now left|].
  destruct (isspace c) eqn:Hc; [exact IH|]. right. now exists c, s.
Qed.

Lemma strip_idem s : strip (strip s) = strip s.
Proof.
  unfold strip. destruct (lstrip_head s) as [-> | (c & t & -> & Hc)].
  - reflexivity.
  - destruct (rstrip_head c t Hc) as [u Hu]. rewrite Hu.
    cbn [lstrip]. rewrite Hc, <- Hu. apply rstrip_idem.
Qed.

Lemma In_firstn {A} (x : A) n : forall l, In x (firstn n l) -> In x l.
Proof.
  induction n as [|n IH]; intros [|y l] H; cbn in H; try contradiction.
  destruct H as [->|H]; [now left | right; now apply IH].
Qed.

(** A suggestion taken from a line is a trimmed, non-empty text. *)
Lemma suggestion_step_entry line s :
  In s (suggestion_step [] line) ->
  exists x, s = strip x /\ truthy (strip x) = true.
Proof.
  unfold suggestion_step.
  destruct (strip line) as [|c0 rest]; [contradiction|].
  destruct (isdigit_char c0 && contains ". " (String c0 rest));
    [|contradiction].
  destruct (split1 ". " (String c0 rest)) as [|p0 [|p1 [|p2 l]]];
    try contradiction.
  destruct (truthy (strip p1)) eqn:Ht; [|contradiction].
  intros [<-|[]]. now exists p1.
Qed.

(** X1.  Whatever the text, the parser returns at most three suggestions,
    and each of them is non-empty and trimmed. *)
Theorem parse_suggestions_clean (suggestions_text : string) :
  (List.length (parse_suggestions suggestions_text) <= 3)%nat
  /\ (forall s,
        In s (parse_suggestions suggestions_text) ->
        s <> "" /\ strip s = s).
Proof.
  split; [apply firstn_le_length|].
  intros s Hs. unfold parse_suggestions in Hs. apply In_firstn in Hs.
  rewrite suggestion_loop in Hs. cbn [app] in Hs.
  assert (Hx : exists x, s = strip x /\ truthy (strip x) = true).
  { destruct (flat_map (suggestion_step [])
                (split_lines (strip suggestions_text))) as [|s0 l] eqn:Hf.
    - destruct (1 <=? _)%nat; [|contradiction].
      apply In_firstn, in_map_iff in Hs. destruct Hs as (x & <- & Hx).
      apply filter_In in Hx. exists x. now split.
    - rewrite <- Hf in Hs. apply in_flat_map in Hs.
      destruct Hs as (line & _ & Hs). now apply suggestion_step_entry in Hs. }
  destruct Hx as (x & -> & Ht). split.
  - now apply truthy_iff.
  - apply strip_idem.
Qed.

Lemma parse_suggestions_clean_witness :
  "I see!" <> "" /\ strip "I see!" = "I see!".
Proof.
  apply (proj2 (parse_suggestions_clean
                  ("1.  I see! " ++ nl ++ "2. Why?" ++ nl ++ "3. How?"
                   ++ nl ++ "4. More"))).
  left. reflexivity.
Defined.

(** X2.  The suggestion generator returns at most three entries, and it
    makes at most one hosted call, the completion call to "gpt-4o-mini"
    with 150 tokens at most. *)
Theorem generate_suggested_responses_bounded (E : Env)
  (tutor_message : string) (tr : list api_call) :
  (List.length (fst (generate_suggested_responses E tutor_message tr)) <= 3)%nat
  /\ snd (generate_suggested_responses E tutor_message tr)
     = (tr ++ if truthy tutor_message && negb (startswith tutor_message "Error")
              then [ChatCompletion (suggestion_request E tutor_message)]
              else [])%list.
Proof.
  unfold generate_suggested_responses.
  destruct (truthy tutor_message); cbn [negb orb andb].
  - destruct (startswith tutor_message "Error"); cbn [negb].
    + cbn. rewrite app_nil_r. split; [lia | reflexivity].
    + rewrite bind_run. cbn [chat fst snd].
      destruct (chat_completions_create E tr _); cbn [ret Monad_API fst snd].
      * split; [unfold parse_suggestions; apply firstn_le_length | reflexivity].
      * cbn. split; [lia | reflexivity].
  - cbn. rewrite app_nil_r. split; [lia | reflexivity].
Qed.

End ParsedSuggestions.

(** ** The hosted calls of the submit handlers *)

Section SubmitCalls.

Variable E : Env.

Lemma ai_tutor_run user_input history tr :
  ai_tutor E user_input history tr
  = (match chat_completions_create E tr
             (tutor_request E user_input history) with
     | Reply reply => reply
     | Failure e => tutor_error e
     end,
     (tr ++ [ChatCompletion (tutor_request E user_input history)])%list).
Proof.
  unfold ai_tutor. rewrite bind_run. cbn [chat fst snd].
  fold (tutor_request E user_input history).
  now destruct (chat_completions_create E tr _).
Qed.

Lemma generate_suggested_responses_trace tutor_message tr :
  snd (generate_suggested_responses E tutor_message tr)
  = (tr ++ if truthy tutor_message && negb (startswith tutor_message "Error")
           then [ChatCompletion (suggestion_request E tutor_message)]
           else [])%list.
Proof.
  unfold generate_suggested_responses.
  destruct (truthy tutor_message); cbn [negb orb andb].
  - destruct (startswith tutor_message "Error"); cbn [negb].
    + cbn. now rewrite app_nil_r.
    + rewrite bind_run. cbn [chat fst snd].
      now destruct (chat_completions_create E tr _).
  - cbn. now rewrite app_nil_r.
Qed.

Lemma tutor_error_is_error e : startswith (tutor_error e) "Error" = true.
Proof. reflexivity. Qed.

Lemma generate_suggested_responses_on_error e tr :
  generate_suggested_responses E (tutor_error e) tr = ([], tr).
Proof. reflexivity. Qed.

End SubmitCalls.

(** X3.  A submit-text event with a message that is not blank makes its
    hosted calls in this order: the tutor's completion call; then, when
    voice output is on and the reply does not begin with "Error", the
    speech call for the reply, unless creating the temporary file raises
    before it; then the suggestion call, made exactly when the reply is
    not empty and does not begin with "Error".  The audio it returns is
    the path [generate_speech] yields, and none when [generate_speech] is
    not entered or fails. *)
Theorem text_submit_calls (E : Env) (message : string)
  (chat_history : list turn) (voice_enabled : bool) (tr : list api_call) :
  strip message <> "" ->
  let bot_message := fst (ai_tutor E message chat_history tr) in
  let tr1 :=
    (tr ++ [ChatCompletion (tutor_request E message chat_history)])%list in
  let speaks := voice_enabled && negb (startswith bot_message "Error") in
  let suggests :=
    truthy bot_message && negb (startswith bot_message "Error") in
  snd (process_text_and_update E message chat_history voice_enabled tr)
  = (tr1 ++ (if speaks && speech_call_made E tr1 bot_message "nova"
             then [Speech bot_message "nova"] else [])
         ++ (if suggests
             then [ChatCompletion (suggestion_request E bot_message)]
             else []))%list
  /\ out_audio
       (fst (process_text_and_update E message chat_history voice_enabled tr))
     = (if speaks then audio_speech_create E tr1 bot_message "nova" else None)
  /\ (audio_speech_create E tr1 bot_message "nova" <> None ->
      speech_call_made E tr1 bot_message "nova" = true).
Proof.
  intros H. apply truthy_iff in H. cbv zeta.
  unfold process_text_and_update. rewrite H. cbn [negb].
  rewrite !bind_run. rewrite ai_tutor_run. cbn [fst snd].
  set (bot := match chat_completions_create E tr _ with
              | Reply reply => reply
              | Failure e => tutor_error e
              end).
  split; [|split].
  - destruct (voice_enabled && negb (startswith bot "Error")); cbn [andb].
    + unfold generate_speech, speech. cbn [fst snd ret Monad_API].
      rewrite generate_suggested_responses_trace.
      destruct (speech_call_made E _ bot "nova").
      * now rewrite <- !app_assoc.
      * reflexivity.
    + cbn [fst snd ret Monad_API app].
      now rewrite generate_suggested_responses_trace.
  - now destruct (voice_enabled && negb (startswith bot "Error")).
  - unfold speech_call_made.
    now destruct (audio_speech_create E _ bot "nova").
Qed.

Lemma text_submit_calls_witness :
  snd (process_text_and_update (Demo.env (Reply "Hello") Demo.never)
         "And 1/2?" Demo.one_turn true [])
  = [ChatCompletion
       (tutor_request (Demo.env (Reply "Hello") Demo.never)
          "And 1/2?" Demo.one_turn);
     Speech "Hello" "nova";
     ChatCompletion
       (suggestion_request (Demo.env (Reply "Hello") Demo.never) "Hello")]
  /\ out_audio
       (fst (process_text_and_update (Demo.env (Reply "Hello") Demo.never)
               "And 1/2?" Demo.one_turn true []))
     = Some "/tmp/speech.mp3".
Proof.
  split;
    [apply (proj1 (text_submit_calls (Demo.env (Reply "Hello") Demo.never)
                     "And 1/2?" Demo.one_turn true [] ltac:(discriminate)))
    |apply (proj1 (proj2 (text_submit_calls
                            (Demo.env (Reply "Hello") Demo.never)
                            "And 1/2?" Demo.one_turn true []
                            ltac:(discriminate))))].
Defined.

(** X4.  When the tutor's completion call fails, a submit handler makes no
    further hosted call: it appends the turn with the error text, returns
    no audio even with voice output on, and hides the three suggestion
    buttons.  This holds for a text message that is not blank, and for a
    recording that was transcribed to a text that is not empty and does
    not begin with "Error". *)
Theorem failed_completion_stops_the_handler (E : Env)
  (chat_history : list turn) (voice_enabled : bool) (tr : list api_call)
  (e : string) :
  (forall message,
     strip message <> "" ->
     chat_completions_create E tr (tutor_request E message chat_history)
     = Failure e ->
     process_text_and_update E message chat_history voice_enabled tr
     = (("", (chat_history ++ [(message, Some (tutor_error e))])%list,
         None, all_hidden),
        (tr ++ [ChatCompletion (tutor_request E message chat_history)])%list))
  /\ (forall path user_text,
        audio_transcriptions_create E tr path = Reply user_text ->
        user_text <> "" ->
        startswith user_text "Error" = false ->
        chat_completions_create E (tr ++ [Transcription path])%list
          (tutor_request E user_text chat_history)
        = Failure e ->
        process_audio_and_update E (Some path) chat_history voice_enabled tr
        = ((None, (chat_history ++ [(user_text, Some (tutor_error e))])%list,
            None, all_hidden),
           (tr ++ [Transcription path]
               ++ [ChatCompletion
                     (tutor_request E user_text chat_history)])%list)).
Proof.
  split.
  - intros message H Hf. apply truthy_iff in H.
    unfold process_text_and_update. rewrite H. cbn [negb].
    rewrite bind_run, ai_tutor_run, Hf. cbn [fst snd].
    rewrite tutor_error_is_error, andb_false_r.
    rewrite bind_run. cbn [ret Monad_API fst snd].
    rewrite bind_run, generate_suggested_responses_on_error.
    reflexivity.
  - intros path user_text Ht Hne He Hf. apply truthy_iff in Hne.
    unfold process_audio_and_update, transcribe_audio.
    rewrite !bind_run. unfold transcriptions, transcription_call_made.
    cbn [fst snd]. rewrite Ht.
    cbn [ret Monad_API fst snd]. rewrite Hne, He. cbn [negb orb].
    rewrite bind_run, ai_tutor_run, Hf. cbn [fst snd].
    rewrite tutor_error_is_error, andb_false_r.
    rewrite bind_run. cbn [ret Monad_API fst snd].
    rewrite bind_run, generate_suggested_responses_on_error.
    cbn [ret Monad_API fst snd]. now rewrite <- app_assoc.
Qed.

Lemma failed_completion_stops_the_handler_witness :
  process_text_and_update (Demo.env (Failure "timeout") Demo.never)
    "And 1/2?" Demo.one_turn true []
  = (("", (Demo.one_turn ++ [("And 1/2?", Some (tutor_error "timeout"))])%list,
      None, all_hidden),
     ([] ++ [ChatCompletion
               (tutor_request (Demo.env (Failure "timeout") Demo.never)
                  "And 1/2?" Demo.one_turn)])%list).
Proof.
  apply (proj1 (failed_completion_stops_the_handler
                  (Demo.env (Failure "timeout") Demo.never)
                  Demo.one_turn true [] "timeout")).
  - discriminate.
  - reflexivity.
Defined.

(** X5.  A submit-audio event whose transcription fails, is empty, or
    begins with "Error" makes no hosted call but the transcription call,
    and not that one either when it is opening the recording that raises.
    It appends the turn "(Audio input)" with the transcription error, with
    "Audio could not be transcribed or was empty." for an empty
    transcription, or with the transcribed text itself when that begins
    with "Error"; it returns no audio and hides the buttons. *)
Theorem failed_transcription_stops_the_handler (E : Env) (path : string)
  (chat_history : list turn) (voice_enabled : bool) (tr : list api_call) :
  let stopped (shown : string) (calls_made : list api_call) :=
    process_audio_and_update E (Some path) chat_history voice_enabled tr
    = ((None, (chat_history ++ [("(Audio input)", Some shown)])%list,
        None, all_hidden),
       (tr ++ calls_made)%list) in
  (forall e,
     audio_transcriptions_create E tr path = Failure e ->
     stopped ("Error transcribing audio: " ++ e)
       (if audio_open_raises E tr path then [] else [Transcription path]))
  /\ (audio_transcriptions_create E tr path = Reply "" ->
      stopped "Audio could not be transcribed or was empty."
        [Transcription path])
  /\ (forall user_text,
        audio_transcriptions_create E tr path = Reply user_text ->
        startswith user_text "Error" = true ->
        stopped user_text [Transcription path]).
Proof.
  cbv zeta. unfold process_audio_and_update, transcribe_audio.
  split; [|split].
  - intros e Hf. rewrite !bind_run.
    unfold transcriptions, transcription_call_made. cbn [fst snd].
    rewrite Hf. cbn [ret Monad_API fst snd].
    destruct (audio_open_raises E tr path); cbn [negb];
      rewrite ?app_nil_r; reflexivity.
  - intros Hf. rewrite !bind_run.
    unfold transcriptions, transcription_call_made. cbn [fst snd].
    rewrite Hf. reflexivity.
  - intros user_text Hf He. rewrite !bind_run.
    unfold transcriptions, transcription_call_made. cbn [fst snd].
    rewrite Hf. cbn [ret Monad_API fst snd]. rewrite He, orb_true_r.
    destruct user_text; [discriminate|]. reflexivity.
Qed.

Lemma failed_transcription_stops_the_handler_witness :
  process_audio_and_update Scenario.missing_file
    (Some "/tmp/rec.wav") Demo.one_turn true []
  = ((None,
      (Demo.one_turn
       ++ [("(Audio input)",
            Some ("Error transcribing audio: " ++ "No such file")%string)])%list,
      None, all_hidden),
     ([] ++ [])%list).
Proof.
  apply (proj1 (failed_transcription_stops_the_handler
                  Scenario.missing_file
                  "/tmp/rec.wav" Demo.one_turn true [])).
  reflexivity.
Defined.

(** ** The study-guide request and the export *)

Section StudyGuideRequest.

Variable E : Env.

Lemma string_append_assoc a b c : (a ++ b) ++ c = a ++ b ++ c.
Proof. induction a as [|x a IH]; cbn [append]; [reflexivity | now f_equal]. Qed.

Lemma string_append_nil_r a : a ++ "" = a.
Proof. induction a as [|x a IH]; cbn [append]; [reflexivity | now f_equal]. Qed.

Lemma transcript_step_eq conversation_text t :
  transcript_step conversation_text t = conversation_text ++ turn_text t.
Proof.
  destruct t as [human [a|]]; unfold transcript_step, turn_text;
    cbn [fst snd truthy_opt].
  - destruct (truthy a); rewrite ?string_append_assoc;
      rewrite ?string_append_nil_r; reflexivity.
  - rewrite ?string_append_assoc, ?string_append_nil_r. reflexivity.
Qed.

Lemma transcript_loop history : forall conversation_text,
  fold_left transcript_step history conversation_text
  = conversation_text ++ transcript_text history.
Proof.
  induction history as [|t history IH]; intros conversation_text;
    cbn [fold_left transcript_text fold_right].
  - now rewrite string_append_nil_r.
  - rewrite IH, transcript_step_eq. apply string_append_assoc.
Qed.

(** X6.  The study-guide request always holds two messages, the system
    prompt and one user message.  The user message carries the
    transcript: after the fixed header, each turn in order gives a
    "STUDENT: " entry, also when the user's text is empty, followed by a
    "TUTOR: " entry only when the assistant's text is present and not
    empty. *)
Theorem study_guide_request_text (chat_history : list turn) :
  study_guide_messages E chat_history
  = [Message "system" (SUMMARY_SYSTEM_PROMPT E);
     Message "user"
       ("Please create a concise study guide based on this tutoring conversation:"
        ++ nl ++ nl ++ "### TUTORING SESSION TRANSCRIPT ###" ++ nl ++ nl
        ++ transcript_text chat_history)].
Proof.
  unfold study_guide_messages. rewrite transcript_loop.
  cbn [app]. now rewrite !string_append_assoc.
Qed.

Lemma generate_study_guide_content_run t chat_history tr :
  generate_study_guide_content E (t :: chat_history) tr
  = (match chat_completions_create E tr
             (ChatRequest "gpt-4o" (study_guide_messages E (t :: chat_history))
                2000 (5 # 10)) with
     | Reply study_guide_content => ensure_heading study_guide_content
     | Failure e => "Error generating study guide: " ++ e
     end,
     (tr ++ [ChatCompletion
               (ChatRequest "gpt-4o"
                  (study_guide_messages E (t :: chat_history))
                  2000 (5 # 10))])%list).
Proof.
  unfold generate_study_guide_content. rewrite bind_run. cbn [chat fst snd].
  now destruct (chat_completions_create E tr _).
Qed.

(** X7.  For a non-empty transcript, the generated content begins with
    "Error" exactly when the completion call failed: a text the model
    returns is never taken for a failure by the export. *)
Theorem content_error_iff_call_failed (t : turn) (chat_history : list turn)
  (tr : list api_call) :
  startswith (fst (generate_study_guide_content E (t :: chat_history) tr))
    "Error" = true
  <-> exists e,
        chat_completions_create E tr
          (ChatRequest "gpt-4o" (study_guide_messages E (t :: chat_history))
             2000 (5 # 10)) = Failure e.
Proof.
  rewrite generate_study_guide_content_run. cbn [fst].
  destruct (chat_completions_create E tr _) as [content|e].
  - rewrite ensure_heading_is_not_error. split; [discriminate|].
    intros [e He]. discriminate.
  - split; [now exists e | reflexivity].
Qed.

(** X8.  Whatever the transcript and the services, the export shows the
    download exactly when it carries a non-empty file path, and it makes
    one hosted call, the content-generation call, for a non-empty
    transcript and none for the empty one. *)
Theorem export_visible_iff_file (chat_history : list turn)
  (tr : list api_call) :
  let out := create_and_download_study_guide E chat_history tr in
  file_visible (fst (fst out)) = truthy_opt (file_value (fst (fst out)))
  /\ snd out
     = (tr ++ match chat_history with
              | [] => []
              | _ =>
                  [ChatCompletion
                     (ChatRequest "gpt-4o"
                        (study_guide_messages E chat_history) 2000 (5 # 10))]
              end)%list.
Proof.
  cbv zeta. destruct chat_history as [|t chat_history].
  - cbn. now rewrite app_nil_r.
  - unfold create_and_download_study_guide.
    rewrite bind_run, generate_study_guide_content_run. cbn [fst snd].
    match goal with
    | |- context [startswith ?x "Error"] => destruct (startswith x "Error")
    end; [split; reflexivity|].
    match goal with
    | |- context [save_study_guide E ?x] =>
        destruct (save_study_guide E x) as [file_path status_message]
    end.
    destruct (truthy_opt file_path) eqn:Hf; cbn [ret Monad_API fst snd
      file_visible file_value truthy_opt]; now rewrite ?Hf.
Qed.

(** X9.  [create_pdf] returns a path only if FPDF is available, the FPDF
    object accepts the four calls that open the document, and writing the
    file returns that path; when the import of FPDF failed it returns
    nothing, whatever the text. *)
Theorem create_pdf_some (study_guide_text p : string) :
  (create_pdf E study_guide_text = Some p ->
   FPDF_available E = true
   /\ accepts E [] opening_calls = true
   /\ fpdf_output E
        (calls (snd (create_pdf_document E study_guide_text
                       (PdfState [] None)))) = Some p)
  /\ (FPDF_available E = false -> create_pdf E study_guide_text = None).
Proof.
  split.
  2:{ intros H. unfold create_pdf. now rewrite H. }
  intros H.
  destruct (FPDF_available E) eqn:Hav;
    [|unfold create_pdf in H; rewrite Hav in H; discriminate].
  destruct (accepts E [] opening_calls) eqn:Hop.
  - rewrite (create_pdf_outputs E _ Hav Hop) in H. auto.
  - exfalso. unfold create_pdf in H. rewrite Hav in H. cbn [negb] in H.
    unfold create_pdf_document in H. cbn [bind Monad_PDF] in H.
    unfold opening_calls in Hop. cbn [accepts app] in Hop.
    unfold pdf at 1 in H. cbn [calls line_strip_var] in H.
    destruct (fpdf_raises E [] FPDF_new); [discriminate|].
    cbn [app] in H. unfold pdf at 1 in H. cbn [calls line_strip_var] in H.
    destruct (fpdf_raises E [FPDF_new] add_page); [discriminate|].
    cbn [app] in H. unfold pdf at 1 in H. cbn [calls line_strip_var] in H.
    destruct (fpdf_raises E [FPDF_new; add_page] (set_auto_page_break true 15));
      [discriminate|].
    cbn [app] in H. unfold pdf at 1 in H. cbn [calls line_strip_var] in H.
    destruct (fpdf_raises E [FPDF_new; add_page; set_auto_page_break true 15]
                (set_font "Arial" "" 12)); [discriminate|].
    discriminate.
Qed.

End StudyGuideRequest.

Lemma create_pdf_some_witness :
  FPDF_available (Demo.env (Reply "Hello") Demo.bad_text) = true
  /\ accepts (Demo.env (Reply "Hello") Demo.bad_text) [] opening_calls = true
  /\ fpdf_output (Demo.env (Reply "Hello") Demo.bad_text)
       (calls (snd (create_pdf_document (Demo.env (Reply "Hello") Demo.bad_text)
                      "bad" (PdfState [] None))))
     = Some "/tmp/guide.pdf".
Proof.
  apply (proj1 (create_pdf_some (Demo.env (Reply "Hello") Demo.bad_text)
                  "bad" "/tmp/guide.pdf")).
  reflexivity.
Defined.

(** ** What a line puts into the document *)

Section LineCalls.

Variable E : Env.

Lemma tame_pdf P c : P c = true -> tame E P (pdf E c).
Proof.
  intros HP st r st' H. unfold pdf in H.
  destruct (fpdf_raises E (calls st) c) eqn:Hr; inversion H; subst; cbn.
  - split; [exists []; now rewrite app_nil_r|]. intros e _. eauto.
  - split; [exists [c]; auto|]. intros e He. discriminate.
Qed.

Lemma tame_bind P {A B} (m : PDF A) (f : A -> PDF B) :
  tame E P m -> (forall a, tame E P (f a)) -> tame E P (bind m f).
Proof.
  intros Hm Hf st r st' H. cbn [bind Monad_PDF] in H.
  destruct (m st) as [[e|a] st1] eqn:Hm1.
  - inversion H; subst. destruct (Hm _ _ _ Hm1) as [Hadd Hraise].
    split; [exact Hadd|]. intros e0 _. exact (Hraise e eq_refl).
  - destruct (Hm _ _ _ Hm1) as [(d1 & Hc1 & HP1) _].
    destruct (Hf a _ _ _ H) as [(d2 & Hc2 & HP2) Hraise].
    split; [|exact Hraise]. exists (d1 ++ d2)%list. split.
    + now rewrite Hc2, Hc1, app_assoc.
    + apply Forall_app. auto.
Qed.

Ltac tame_chain :=
  repeat first
    [ apply tame_pdf; reflexivity
    | apply tame_bind; [|intros ?]
    | match goal with
      | |- tame _ _ (if ?c then _ else _) => destruct c
      | |- tame _ _ (match ?x with _ => _ end) => destruct x
      end ].

(** [render_line] never sets the text colour, and raises only when the
    FPDF object does. *)
Lemma render_line_tame line st r st' :
  render_line E line st = (r, st') ->
  (exists added,
     calls st' = (calls st ++ added)%list
     /\ Forall (fun c => negb (is_text_color c) = true) added)
  /\ (forall e, r = inl e -> exists log c, fpdf_raises E log c = true).
Proof.
  unfold render_line. cbn [bind Monad_PDF]. unfold assign_line_strip at 1.
  match goal with
  | |- ?m ?s = _ -> _ =>
      assert (Hs : tame E (fun c => negb (is_text_color c)) m) by tame_chain
  end.
  intros H. apply Hs in H. exact H.
Qed.

(** X10.  On an FPDF object that never raises, the loop over the lines
    returns and adds no [set_text_color] call: nothing is marked as a
    skipped line. *)
Theorem quiet_object_marks_nothing (lines : list string) (st : pdf_state) :
  (forall log c, fpdf_raises E log c = false) ->
  fst (for_each (process_line E) lines st) = inr tt
  /\ exists added,
       calls (snd (for_each (process_line E) lines st))
       = (calls st ++ added)%list
       /\ Forall (fun c => is_text_color c = false) added.
Proof.
  intros Hq. split; [apply for_each_returns|].
  revert st. induction lines as [|line lines IH]; intros st.
  - exists []. cbn. now rewrite app_nil_r.
  - rewrite for_each_cons.
    assert (Hp : exists added,
               calls (snd (process_line E line st)) = (calls st ++ added)%list
               /\ Forall (fun c => is_text_color c = false) added).
    { unfold process_line, try_except.
      destruct (render_line E line st) as [[e|[]] st1] eqn:Hr;
        apply render_line_tame in Hr; destruct Hr as [(d & Hc & HP) Hraise].
      - destruct (Hraise e eq_refl) as (log & c & Hc'). now rewrite Hq in Hc'.
      - exists d. split; [exact Hc|].
        eapply Forall_impl; [|exact HP]. intros c Hc'.
        now apply negb_true_iff in Hc'. }
    destruct Hp as (d1 & Hc1 & HP1).
    destruct (IH (snd (process_line E line st))) as (d2 & Hc2 & HP2).
    exists (d1 ++ d2)%list. split.
    + now rewrite Hc2, Hc1, app_assoc.
    + apply Forall_app. auto.
Qed.

Lemma heading_prefix_kept line p :
  startswith line (String "#" p) = true ->
  exists t, strip line = String "#" t.
Proof.
  intros H. destruct line as [|c s]; [discriminate|].
  unfold startswith in H. cbn [String.prefix] in H.
  destruct (ascii_dec "#" c) as [<-|]; [|discriminate].
  now apply strip_head.
Qed.

(** A line whose trimmed text does not begin with "#" is no heading. *)
Lemma not_heading line c rest p :
  strip line = String c rest -> c <> "#"%char ->
  startswith line (String "#" p) = false.
Proof.
  intros Hs Hc. destruct (startswith line (String "#" p)) eqn:H; [|reflexivity].
  apply heading_prefix_kept in H. destruct H as [t Ht]. congruence.
Qed.

(** X11.  A line of whitespace only, the empty line included, is rendered
    as the half-line spacing [ln 3] and nothing else. *)
Theorem blank_line_is_spacing (line : string) (st : pdf_state) :
  all_space line = true ->
  render_line E line st = pdf E (ln 3) (PdfState (calls st) (Some "")).
Proof.
  intros H. pose proof (proj2 (strip_empty_iff line) H) as Hs.
  assert (Hh : forall p, startswith line (String "#" p) = false).
  { intros p. destruct line as [|c s]; [reflexivity|].
    cbn [all_space] in H. apply andb_true_iff in H. destruct H as [Hc _].
    unfold startswith. cbn [String.prefix].
    destruct (ascii_dec "#" c) as [<-|]; [discriminate | reflexivity]. }
  unfold render_line. cbn [bind Monad_PDF]. unfold assign_line_strip at 1.
  rewrite Hs, !Hh. reflexivity.
Qed.

End LineCalls.

Lemma quiet_object_marks_nothing_witness :
  fst (for_each (process_line (Scenario.listening (Reply "") (Reply "")))
         ["# Title"; ""; "- item"] Demo.opened) = inr tt
  /\ exists added,
       calls (snd (for_each
                     (process_line (Scenario.listening (Reply "") (Reply "")))
                     ["# Title"; ""; "- item"] Demo.opened))
       = (calls Demo.opened ++ added)%list
       /\ Forall (fun c => is_text_color c = false) added.
Proof.
  apply (quiet_object_marks_nothing (Scenario.listening (Reply "") (Reply ""))
           ["# Title"; ""; "- item"] Demo.opened).
  intros log c. reflexivity.
Defined.

Lemma blank_line_is_spacing_witness :
  render_line Demo.bad_text_env "   " Demo.opened
  = pdf Demo.bad_text_env (ln 3) (PdfState (calls Demo.opened) (Some "")).
Proof.
  apply (blank_line_is_spacing Demo.bad_text_env "   " Demo.opened).
  reflexivity.
Defined.

Section LineKinds.

Variable E : Env.

Lemma rstrip_after_space t :
  rstrip (String " " t)
  = match rstrip t with
    | EmptyString => EmptyString
    | String x r => String " " (String x r)
    end.
Proof. cbn [rstrip]. now destruct (rstrip t). Qed.

Lemma rstrip_cons c s :
  rstrip (String c s)
  = match rstrip s with
    | EmptyString => if isspace c then EmptyString else String c EmptyString
    | t => String c t
    end.
Proof. reflexivity. Qed.

Lemma strip_nonspace c s :
  isspace c = false -> strip (String c s) = rstrip (String c s).
Proof. intros H. unfold strip. cbn [lstrip]. now rewrite H. Qed.

(** The title of a heading line: what follows the marker, with the
    whitespace at its end removed. *)
Lemma heading_title_1 t : drop 2 (strip ("# " ++ t)) = rstrip t.
Proof.
  change ("# " ++ t) with (String "#" (String " " t)).
  rewrite strip_nonspace by reflexivity.
  rewrite rstrip_cons, rstrip_after_space. now destruct (rstrip t).
Qed.

Lemma heading_title_2 t : drop 3 (strip ("## " ++ t)) = rstrip t.
Proof.
  change ("## " ++ t) with (String "#" (String "#" (String " " t))).
  rewrite strip_nonspace by reflexivity.
  rewrite !rstrip_cons. now destruct (rstrip t).
Qed.

Lemma heading_title_3 t : drop 4 (strip ("### " ++ t)) = rstrip t.
Proof.
  change ("### " ++ t)
    with (String "#" (String "#" (String "#" (String " " t)))).
  rewrite strip_nonspace by reflexivity.
  rewrite !rstrip_cons. now destruct (rstrip t).
Qed.

(** X12.  A line that begins with "# ", "## " or "### " is rendered as a
    heading of level 1, 2 or 3: bold 16, bold 14 or bold italic 12, with
    spacing before and after, and as its text what follows the marker with
    the whitespace at its end removed. *)
Theorem heading_lines (t : string) (st : pdf_state) :
  render_line E ("# " ++ t) st
  = pdf_seq E
      [set_font "Arial" "B" 16; ln 6; multi_cell 0 6 (rstrip t); ln 3]
      (PdfState (calls st) (Some (strip ("# " ++ t))))
  /\ render_line E ("## " ++ t) st
     = pdf_seq E
         [set_font "Arial" "B" 14; ln 3; multi_cell 0 6 (rstrip t); ln 3]
         (PdfState (calls st) (Some (strip ("## " ++ t))))
  /\ render_line E ("### " ++ t) st
     = pdf_seq E
         [set_font "Arial" "BI" 12; ln 3; multi_cell 0 6 (rstrip t); ln 3]
         (PdfState (calls st) (Some (strip ("### " ++ t)))).
Proof.
  split; [|split]; unfold render_line; cbn [bind Monad_PDF];
    unfold assign_line_strip at 1.
  - unfold startswith at 1. rewrite prefix_app, heading_title_1. reflexivity.
  - replace (startswith ("## " ++ t) "# ") with false by reflexivity.
    unfold startswith at 1. rewrite prefix_app, heading_title_2. reflexivity.
  - replace (startswith ("### " ++ t) "# ") with false by reflexivity.
    replace (startswith ("### " ++ t) "## ") with false by reflexivity.
    unfold startswith at 1. rewrite prefix_app, heading_title_3. reflexivity.
Qed.

(** X13.  A line whose trimmed text begins with "- " or "* " is rendered
    as a bullet item, whatever the whitespace before it: the bullet cell
    at x = 15, then the text after the marker, then x back to 10.  The two
    markers give the same calls. *)
Theorem bullet_lines (line x : string) (st : pdf_state) :
  strip line = "- " ++ x \/ strip line = "* " ++ x ->
  render_line E line st
  = pdf_seq E
      [set_font "Arial" "" 12; set_x 15; cell_bullet 5 6 0;
       multi_cell 0 6 x; set_x 10]
      (PdfState (calls st) (Some (strip line))).
Proof.
  intros H.
  assert (Hh : forall p, startswith line (String "#" p) = false).
  { intros p. destruct H as [H|H];
      eapply not_heading; try exact H; discriminate. }
  unfold render_line. cbn [bind Monad_PDF]. unfold assign_line_strip at 1.
  rewrite !Hh.
  destruct H as [H|H]; rewrite H.
  - unfold startswith at 1. rewrite prefix_app. reflexivity.
  - replace (startswith ("* " ++ x) "- ") with false by reflexivity.
    unfold startswith at 1. rewrite prefix_app. reflexivity.
Qed.

End LineKinds.

Lemma bullet_lines_witness :
  render_line Demo.bad_text_env "   * two thirds  " Demo.opened
  = pdf_seq Demo.bad_text_env
      [set_font "Arial" "" 12; set_x 15; cell_bullet 5 6 0;
       multi_cell 0 6 "two thirds"; set_x 10]
      (PdfState (calls Demo.opened) (Some (strip "   * two thirds  "))).
Proof.
  apply (bullet_lines Demo.bad_text_env "   * two thirds  " "two thirds"
           Demo.opened).
  right. reflexivity.
Defined.

Section NumberedLines.

Variable E : Env.

Lemma digit_line line c0 rest p0 p1 st :
  strip line = String c0 rest ->
  isdigit_char c0 = true ->
  partition ". " (strip line) = Some (p0, p1) ->
  render_line E line st
  = (if isdigit p0 then
       pdf_seq E
         [set_font "Arial" "" 12; set_x 15; cell 5 6 (p0 ++ ".") 0;
          multi_cell 0 6 p1; set_x 10]
     else pdf_seq E [set_font "Arial" "" 12; multi_cell 0 6 line])
      (PdfState (calls st) (Some (strip line))).
Proof.
  intros Hs Hd Hp.
  assert (Hh : forall p, startswith line (String "#" p) = false).
  { intros p. eapply not_heading; [exact Hs|]. intros ->. discriminate. }
  unfold render_line. cbn [bind Monad_PDF]. unfold assign_line_strip at 1.
  rewrite !Hh. unfold contains, split1. rewrite Hp. rewrite Hs.
  unfold startswith. cbn [String.prefix].
  destruct (ascii_dec "-" c0) as [<-|]; [discriminate|].
  destruct (ascii_dec "*" c0) as [<-|]; [discriminate|].
  cbn [orb]. rewrite Hd. cbn [andb].
  now destruct (isdigit p0).
Qed.

(** X14.  A line whose trimmed text has only digits before its first
    ". " is rendered as a numbered item: the number with a dot in a cell
    at x = 15, then the text after the ". ".  A line that begins with a
    digit but has other characters before its first ". " is rendered as a
    plain paragraph, with its text as it is. *)
Theorem numbered_lines (line p0 p1 : string) (st : pdf_state) :
  partition ". " (strip line) = Some (p0, p1) ->
  (isdigit p0 = true ->
   render_line E line st
   = pdf_seq E
       [set_font "Arial" "" 12; set_x 15; cell 5 6 (p0 ++ ".") 0;
        multi_cell 0 6 p1; set_x 10]
       (PdfState (calls st) (Some (strip line))))
  /\ (forall c0 rest,
        strip line = String c0 rest ->
        isdigit_char c0 = true ->
        isdigit p0 = false ->
        render_line E line st
        = pdf_seq E [set_font "Arial" "" 12; multi_cell 0 6 line]
            (PdfState (calls st) (Some (strip line)))).
Proof.
  intros Hp. split.
  - intros Hd. pose proof (partition_sound _ _ _ _ Hp) as Hs.
    destruct p0 as [|c0 p0']; [discriminate|].
    cbn [isdigit all_digits] in Hd. apply andb_true_iff in Hd.
    destruct Hd as [Hc Hrest].
    rewrite (digit_line line c0 (p0' ++ ". " ++ p1) (String c0 p0') p1 st
               Hs Hc Hp).
    cbn [isdigit all_digits]. now rewrite Hc, Hrest.
  - intros c0 rest Hs Hc Hd.
    rewrite (digit_line line c0 rest p0 p1 st Hs Hc Hp). now rewrite Hd.
Qed.

End NumberedLines.

Lemma numbered_lines_witness :
  render_line Demo.bad_text_env " 12. twelve" Demo.opened
  = pdf_seq Demo.bad_text_env
      [set_font "Arial" "" 12; set_x 15; cell 5 6 ("12" ++ ".") 0;
       multi_cell 0 6 "twelve"; set_x 10]
      (PdfState (calls Demo.opened) (Some (strip " 12. twelve"))).
Proof.
  apply (proj1 (numbered_lines Demo.bad_text_env " 12. twelve" "12" "twelve"
                  Demo.opened eq_refl)).
  reflexivity.
Defined.

Section IndentedHeading.

Variable E : Env.

(** X15.  The heading markers are looked for at the very start of the
    line: a line that begins with whitespace and whose trimmed text begins
    with "#" is rendered as a plain paragraph, with its text as it is. *)
Theorem indented_heading_is_plain (c : ascii) (s t : string)
  (st : pdf_state) :
  isspace c = true ->
  strip (String c s) = String "#" t ->
  render_line E (String c s) st
  = pdf_seq E [set_font "Arial" "" 12; multi_cell 0 6 (String c s)]
      (PdfState (calls st) (Some (strip (String c s)))).
Proof.
  intros Hc Hs.
  assert (Hh : forall p, startswith (String c s) (String "#" p) = false).
  { intros p. unfold startswith. cbn [String.prefix].
    destruct (ascii_dec "#" c) as [<-|]; [discriminate | reflexivity]. }
  unfold render_line. cbn [bind Monad_PDF]. unfold assign_line_strip at 1.
  rewrite !Hh, Hs. reflexivity.
Qed.

End IndentedHeading.

Lemma indented_heading_is_plain_witness :
  render_line Demo.bad_text_env "  # Title" Demo.opened
  = pdf_seq Demo.bad_text_env
      [set_font "Arial" "" 12; multi_cell 0 6 "  # Title"]
      (PdfState (calls Demo.opened) (Some (strip "  # Title"))).
Proof.
  apply (indented_heading_is_plain Demo.bad_text_env " " " # Title" " Title"
           Demo.opened).
  - reflexivity.
  - reflexivity.
Defined.
